(** * Auto CS backend: the [/api/generate] handler of [src/api/generate.js]

    A shallow embedding of [generateHandler] together with the fragment of
    JavaScript it relies on (UTF-16 strings, JSON values, truthiness, string
    conversion, [String.prototype.trim], the [usageCounter] map), followed by
    the properties of the handler. *)

From Stdlib Require Import ZArith NArith List String Ascii Bool Lia DecimalN.
From stdpp Require Import gmap list.
Set Warnings "-register-all".
Import ListNotations.

(** ** JavaScript strings *)

Module JS.

(** A JavaScript string is a sequence of UTF-16 code units. *)
Abbreviation jsstring := (list N).

(** One code point as UTF-16: itself inside the basic plane, a surrogate pair
    above it. *)
Definition utf16_units (cp : N) : jsstring :=
  if (cp <? 65536)%N then [cp]
  else [(55296 + (cp - 65536) / 1024)%N; (56320 + (cp - 65536) mod 1024)%N].

(** Source literals are written in this file as UTF-8 text; [utf8_decode]
    reads the bytes of such a literal, [acc] holding the bits of the code
    point under way and [need] the number of continuation bytes still due. *)
Fixpoint utf8_decode (s : string) (acc : N) (need : nat) : jsstring :=
  match s with
  | EmptyString => []
  | String a rest =>
      let b := N_of_ascii a in
      match need with
      | O =>
          if (b <? 128)%N then b :: utf8_decode rest 0%N 0
          else if (b <? 224)%N then utf8_decode rest (b - 192)%N 1
          else if (b <? 240)%N then utf8_decode rest (b - 224)%N 2
          else utf8_decode rest (b - 240)%N 3
      | S O => utf16_units (acc * 64 + (b - 128))%N ++ utf8_decode rest 0%N 0
      | S n => utf8_decode rest (acc * 64 + (b - 128))%N n
      end
  end.

(** [lit "..."] is the JavaScript string a source literal denotes. *)
Definition lit (s : string) : jsstring := utf8_decode s 0%N 0.

(** WhiteSpace and LineTerminator code units of ECMAScript, the characters
    [String.prototype.trim] strips. *)
Definition is_white_space (c : N) : bool :=
  (  (c =? 9) || (c =? 10) || (c =? 11) || (c =? 12) || (c =? 13)
  || (c =? 32) || (c =? 160) || (c =? 5760)
  || ((8192 <=? c) && (c <=? 8202))
  || (c =? 8232) || (c =? 8233) || (c =? 8239) || (c =? 8287)
  || (c =? 12288) || (c =? 65279))%N.

Fixpoint trimStart (s : jsstring) : jsstring :=
  match s with
  | [] => []
  | c :: rest => if is_white_space c then trimStart rest else s
  end.

Definition trimEnd (s : jsstring) : jsstring := rev (trimStart (rev s)).

(** [s.trim()] *)
Definition trim (s : jsstring) : jsstring := trimEnd (trimStart s).

(** [s.split(sep)[0]] for a one-unit separator: the part of [s] before the
    first occurrence of [sep], all of [s] when there is none. *)
Fixpoint split_first (sep : N) (s : jsstring) : jsstring :=
  match s with
  | [] => []
  | c :: rest => if (c =? sep)%N then [] else c :: split_first sep rest
  end.

(** Decimal digits of a natural number, as a string. *)
Fixpoint digits_of_uint (d : Decimal.uint) : jsstring :=
  match d with
  | Decimal.Nil => []
  | Decimal.D0 r => 48%N :: digits_of_uint r
  | Decimal.D1 r => 49%N :: digits_of_uint r
  | Decimal.D2 r => 50%N :: digits_of_uint r
  | Decimal.D3 r => 51%N :: digits_of_uint r
  | Decimal.D4 r => 52%N :: digits_of_uint r
  | Decimal.D5 r => 53%N :: digits_of_uint r
  | Decimal.D6 r => 54%N :: digits_of_uint r
  | Decimal.D7 r => 55%N :: digits_of_uint r
  | Decimal.D8 r => 56%N :: digits_of_uint r
  | Decimal.D9 r => 57%N :: digits_of_uint r
  end.

Definition decimal (n : N) : jsstring := digits_of_uint (N.to_uint n).

(** [String(n).padStart(width, '0')] *)
Definition pad0 (width : nat) (n : N) : jsstring :=
  let d := decimal n in repeat 48%N (width - length d) ++ d.

(** ** JSON values

    The request body comes out of [express.json()] and the provider's result
    out of the SDK's JSON decoding, so the values the handler meets are JSON
    values, plus [undefined] for what is absent.

    A number is observed by the handler in two ways only: its truthiness
    (is it zero) and its rendering by [Number::toString].  A number is
    therefore either zero or a nonzero number given with its rendering. *)
Inductive number : Type :=
| Zero
| NonZero (rendering : jsstring).

(** An object is the list of its own properties; a lookup takes the first
    binding of the name. *)
Inductive value : Type :=
| VUndefined
| VNull
| VBool (b : bool)
| VNum (n : number)
| VStr (s : jsstring)
| VArr (elems : list value)
| VObj (props : list (jsstring * value)).

(** ToBoolean *)
Definition truthy (v : value) : bool :=
  match v with
  | VUndefined | VNull => false
  | VBool b => b
  | VNum Zero => false
  | VNum (NonZero _) => true
  | VStr [] => false
  | VStr (_ :: _) => true
  | VArr _ | VObj _ => true
  end.

(** [a || b] *)
Definition or_else (a b : value) : value := if truthy a then a else b.

Fixpoint own_property (props : list (jsstring * value)) (name : jsstring) : option value :=
  match props with
  | [] => None
  | (k, v) :: rest => if bool_decide (k = name) then Some v else own_property rest name
  end.

Definition nullish (v : value) : bool :=
  match v with VUndefined | VNull => true | _ => false end.

(** [v.name], for the property names this handler reads (licenseKey, tone,
    clipboardText, clientId, scenario, output, content, type, text): none of
    them is defined on a built-in prototype, so on a value that is not an
    object with that own property the read gives [undefined].  Reading a
    property of [undefined] or [null] throws: [None]. *)
Definition get (v : value) (name : jsstring) : option value :=
  match v with
  | VUndefined | VNull => None
  | VObj props => Some (default VUndefined (own_property props name))
  | _ => Some VUndefined
  end.

(** [v?.name] *)
Definition get_optional (v : value) (name : jsstring) : value :=
  default VUndefined (get v name).

(** ToString, as a template literal applies it; [None] is a thrown
    TypeError.  An array is joined with commas, [undefined] and [null]
    elements rendering as the empty string.  A JSON object has no callable
    property of its own: with an own [toString] property neither that nor
    [Object.prototype.valueOf] yields a primitive and the conversion throws;
    without one, [Object.prototype.toString] answers. *)
Fixpoint ToString (v : value) : option jsstring :=
  match v with
  | VUndefined => Some (lit "undefined")
  | VNull => Some (lit "null")
  | VBool true => Some (lit "true")
  | VBool false => Some (lit "false")
  | VNum Zero => Some (lit "0")
  | VNum (NonZero r) => Some r
  | VStr s => Some s
  | VArr elems =>
      (fix join (l : list value) : option jsstring :=
         match l with
         | [] => Some []
         | e :: rest =>
             match (if nullish e then Some [] else ToString e), rest with
             | None, _ => None
             | Some s, [] => Some s
             | Some s, _ :: _ =>
                 match join rest with
                 | None => None
                 | Some r => Some (s ++ lit "," ++ r)
                 end
             end
         end) elems
  | VObj props =>
      match own_property props (lit "toString") with
      | Some _ => None
      | None => Some (lit "[object Object]")
      end
  end.

(** [v.toString()]: the method call.  On the values above it agrees with
    ToString, except that [undefined] and [null] have no such method. *)
Definition call_toString (v : value) : option jsstring :=
  if nullish v then None else ToString v.

(** [v === 'literal'] *)
Definition strict_equals_string (v : value) (s : jsstring) : bool :=
  match v with
  | VStr s' => bool_decide (s' = s)
  | _ => false
  end.

End JS.
Import JS.

(** ** The clock

    [new Date()] read in UTC.  [toISOString] prints a year between 0 and 9999
    with four digits and any other year with a sign and six digits. *)
Record Date : Type := {
  year : Z;
  month : N;
  day : N;
  hours : N;
  minutes : N;
  seconds : N;
  milliseconds : N
}.

Definition toISOString (d : Date) : jsstring :=
  (if (0 <=? year d)%Z && (year d <=? 9999)%Z then pad0 4 (Z.to_N (year d))
   else (if (year d <? 0)%Z then lit "-" else lit "+") ++ pad0 6 (Z.abs_N (year d)))
  ++ lit "-" ++ pad0 2 (month d) ++ lit "-" ++ pad0 2 (day d)
  ++ lit "T" ++ pad0 2 (hours d) ++ lit ":" ++ pad0 2 (minutes d)
  ++ lit ":" ++ pad0 2 (seconds d) ++ lit "." ++ pad0 3 (milliseconds d) ++ lit "Z".

(** [new Date().toISOString().split('T')[0]], with the clock reading [now]
    as an argument. *)
Definition todayStr (now : Date) : jsstring :=
  split_first 84%N (toISOString now).

(** Two readings fall on the same calendar day (UTC). *)
Definition same_day (a b : Date) : Prop :=
  year a = year b /\ month a = month b /\ day a = day b.

(** ** Requests, responses and the provider *)

(** The fields [generateHandler] destructures from the request body. *)
Record request_fields : Type := {
  licenseKey : value;
  tone : value;
  clipboardText : value;
  clientId : value;
  scenario : value
}.

(** [const { licenseKey, tone, clipboardText, clientId, scenario } = req.body || {}] *)
Definition destructure (body : value) : request_fields :=
  let b := or_else body (VObj []) in
  {| licenseKey := get_optional b (lit "licenseKey");
     tone := get_optional b (lit "tone");
     clipboardText := get_optional b (lit "clipboardText");
     clientId := get_optional b (lit "clientId");
     scenario := get_optional b (lit "scenario") |}.

(** The JSON envelope every response carries. *)
Record envelope : Type := {
  ok : bool;
  reply : jsstring;
  todayUsage : Z;
  todayLimit : Z;
  isPro : bool;
  message : jsstring
}.

(** [res.status(code).json(body)] *)
Record response : Type := {
  status : Z;
  json : envelope
}.

(** The argument of [openai.responses.create]: the model name and the text
    of the system and of the user message. *)
Record provider_request : Type := {
  model : jsstring;
  system_text : jsstring;
  user_text : jsstring
}.

(** What awaiting the provider's promise gives: it rejects (any transport or
    API error), or it resolves to a result. *)
Inductive provider_outcome : Type :=
| Rejects
| Resolves (ai : value).

Definition provider : Type := provider_request -> provider_outcome.

(** ** State and effects

    The module-level [usageCounter] map, and the log of the calls made to
    the provider.  The counts are integers: the handler only ever stores
    [used + 1], starting from 0, and JavaScript's numbers represent such
    values exactly (up to 2^53). *)
Record world : Type := {
  usageCounter : gmap jsstring Z;
  invoked : list provider_request
}.

(** A statement completes normally with a value or abruptly by a throw (the
    thrown error is only logged by the handler, so it is not kept).  A throw
    does not undo the effects that came before it. *)
Inductive completion (A : Type) : Type :=
| Normal (a : A)
| Throw.
Arguments Normal {A} a.
Arguments Throw {A}.

Definition M (A : Type) : Type := world -> completion A * world.

#[global] Instance M_ret : MRet M := fun A (a : A) w => (Normal a, w).

#[global] Instance M_bind : MBind M := fun A B (k : A -> M B) (c : M A) w =>
  match c w with
  | (Normal a, w') => k a w'
  | (Throw, w') => (Throw, w')
  end.

(** An operation that may throw without touching the state. *)
Definition attempt {A : Type} (o : option A) : M A := fun w =>
  match o with
  | Some a => (Normal a, w)
  | None => (Throw, w)
  end.

(** [usageCounter.get(key) || otherwise] *)
Definition usage_get_or (key : jsstring) (otherwise : Z) : M Z := fun w =>
  match usageCounter w !! key with
  | Some n => (Normal (if (n =? 0)%Z then otherwise else n), w)
  | None => (Normal otherwise, w)
  end.

(** [usageCounter.set(key, n)] *)
Definition usage_set (key : jsstring) (n : Z) : M unit := fun w =>
  (Normal tt, {| usageCounter := <[key := n]> (usageCounter w); invoked := invoked w |}).

(** [await openai.responses.create(rq)]: the call is logged, and a rejected
    promise is thrown at the await. *)
Definition responses_create (openai : provider) (rq : provider_request) : M value := fun w =>
  let w' := {| usageCounter := usageCounter w; invoked := invoked w ++ [rq] |} in
  match openai rq with
  | Resolves ai => (Normal ai, w')
  | Rejects => (Throw, w')
  end.

(** ** The prompts *)

Definition dq : string := String (ascii_of_nat 34) EmptyString.
Definition nl : string := String (ascii_of_nat 10) EmptyString.

(** The text of a template literal that opens with a line break, holds the
    given lines and closes after a last line break. *)
Fixpoint template (lines : list string) : string :=
  match lines with
  | [] => nl
  | l :: rest => (nl ++ l ++ template rest)%string
  end.

Definition systemPrompt_lines : list string := [
    "너는 10년 차 쿠팡/스마트스토어 판매자로, 고객 문의에 답변하는 CS 담당자이다.";
    "항상 한국어로만 답변한다. 말투는 정중하고 명확하게 유지한다.";
    "답변 길이는 150~220자 정도로 유지한다.";
    "이모티콘이나 과한 느낌표/물음표(!!, ???)는 사용하지 않는다.";
    "고객을 탓하는 표현이나 공격적으로 들릴 수 있는 표현을 쓰지 않는다.";
    dq ++ "AI" ++ dq ++ ", " ++ dq ++ "자동 응답" ++ dq ++ " 같은 표현은 절대 쓰지 않는다.";
    EmptyString;
    "[소규모 셀러 페르소나/스타일 가이드]";
    "- 너는 " ++ dq ++ "작은 온라인 쇼핑몰의 판매자/CS 담당자" ++ dq ++ "다.";
    "- 회사 공지문/약관체처럼 딱딱하지 않게, 실제 소규모 셀러가 쓰는 자연스러운 존댓말을 사용한다.";
    "- 예시 어투:";
    "  · " ++ dq ++ "저희 쪽에서 바로 확인해서 처리 도와드리겠습니다." ++ dq;
    "  · " ++ dq ++ "조금 번거로우시겠지만 ~ 부탁드리겠습니다." ++ dq;
    "- 반말/반쯤 반말, 이모티콘(ㅎㅎ, ^^, ㅠㅠ 등)은 사용하지 않는다.";
    EmptyString;
    "[AI 티 줄이기]";
    "- " ++ dq ++ "AI" ++ dq ++ ", " ++ dq ++ "자동 응답" ++ dq ++ "이라는 표현은 절대 쓰지 않는다.";
    "- 과하게 공식적인 표현은 피하고 자연스럽게 바꿔 쓴다.";
    "  · " ++ dq ++ "이용해 주셔서 진심으로 감사드립니다." ++ dq ++ " → " ++ dq ++ "이용해 주셔서 감사합니다." ++ dq;
    "  · " ++ dq ++ "불편을 드려 대단히 죄송합니다." ++ dq ++ " → " ++ dq ++ "불편을 드려 정말 죄송합니다." ++ dq;
    "- 고객에게 책임을 돌리는 뉘앙스(예: " ++ dq ++ "조금만 힘을 덜 주시면 괜찮습니다" ++ dq ++ ", " ++ dq ++ "사용 방법을 잘못하셔서 발생했습니다" ++ dq ++ " 등)는 사용하지 않는다.";
    EmptyString;
    "[문장 패턴 다양화]";
    "- 매 답변마다 첫 문장의 표현과 문장 길이를 가능하면 조금씩 바꾼다.";
    "- 예: " ++ dq ++ "문의 주셔서 감사합니다." ++ dq ++ ", " ++ dq ++ "질문 남겨 주셔서 감사합니다." ++ dq ++ ", " ++ dq ++ "문의 남겨 주셔서 감사드립니다." ++ dq ++ " 등";
    EmptyString;
    "- scenarioValue가 'review'일 때는, 리뷰에서 중요한 표현이나 문장을 한 번 이상 그대로 인용해서 답변에 포함해라.";
    EmptyString;
    "[tone 적용 규칙]";
    "- tone === " ++ dq ++ "friendly" ++ dq ++ ":";
    "  · 표현을 조금 더 부드럽게, 말끝을 완곡하게 사용한다.";
    "- tone === " ++ dq ++ "business" ++ dq ++ ":";
    "  · 최대한 중립적이고 깔끔한 문장을 사용한다.";
    "- tone === " ++ dq ++ "principle" ++ dq ++ ":";
    "  · 판매자의 정책과 기준을 분명하게 설명하되,";
    "    상대방이 기분 나쁘지 않도록 조심스럽게 표현한다.";
    EmptyString;
    "[scenario 적용 규칙: scenarioValue ∈ {general | claim | review}]";
    "- scenarioValue === " ++ dq ++ "general" ++ dq ++ ":";
    "  · 배송일, 재고, 상품 정보 등 일반 문의라고 가정한다.";
    "  · 답변 구조:";
    "    1) 첫 문장에 가벼운 감사 또는 응대 표현";
    "    2) 다음 1~2문장에서 핵심 답변을 간단하고 명확하게 설명";
    "    3) 마지막 문장에서 추가 문의 가능성과 간단한 감사 인사를 덧붙임";
    EmptyString;
    "- scenarioValue === " ++ dq ++ "claim" ++ dq ++ ":";
    "  · 파손, 불량, 환불, 교환, 반품, 취소, 지연, 불편, 불만 등 클레임/불만 상황이라고 가정한다.";
    "  · 답변 구조(반드시 이 순서):";
    "    1) 첫 문장: 고객의 불편을 인정하고 사과/공감 표현";
    "    2) 다음 1~2문장: 판매자가 해줄 수 있는 구체 해결 방법 또는 진행 절차 안내";
    "    3) 마지막 문장: 추가 문의 시 안내 + 감사 인사";
    "  · 문제의 원인을 고객의 사용 실수로 돌리는 표현은 피하고, 판매자/제품 측의 확인과 개선 의지를 중심으로 설명한다.";
    EmptyString;
    "- scenarioValue === " ++ dq ++ "review" ++ dq ++ ":";
    "  · 리뷰/후기에 다는 답글이라고 가정한다. clipboardText 내용을 바탕으로";
    "    긍정/부정/복합(장점+단점 혼재)을 대략 구분해서 대응한다.";
    "  · 공통 규칙:";
    "    1) 리뷰에서 중요한 표현이나 문장을 한 번 이상 그대로 인용하거나 바꿔 말해 준다.";
    "       (예: “허리나 어깨 부담이 줄었다고 말씀해 주셔서 저희도 기쁩니다.”)";
    "    2) 리뷰어를 탓하거나 방어적으로 들리는 표현은 사용하지 않는다.";
    "  · 긍정 리뷰로 보이는 경우:";
    "    1) 첫 문장에서 진심 어린 감사 인사";
    "    2) 다음 문장에서 리뷰에서 언급한 장점을 짚어 주고 함께 기뻐하는 표현";
    "    3) 마지막 문장에서 재구매/재방문 유도 또는 브랜드/상호명 언급으로 마무리";
    "  · 부정 또는 아쉬운 리뷰로 보이는 경우:";
    "    1) 첫 문장에서 사과/공감 표현";
    "    2) 다음 문장에서 리뷰에서 언급한 불편 포인트를 다시 짚고,";
    "       개선 의지 또는 교환/환불/점검 등 구체적인 해결 방법을 간단히 안내";
    "    3) 마지막 문장에서 감사 인사 및 추가 문의 안내";
    "  · 사용법 안내가 꼭 필요한 내용(예: “어떻게 쓰는지 모르겠다”, “조립이 헷갈린다” 등)이 아닌 경우에는";
    "    억지로 사용 팁을 제시하지 말고, 문제 해결과 후속 지원(교환/환불/점검) 중심으로 답변한다."
  ]%string.

Definition systemPrompt : jsstring := trim (lit (template systemPrompt_lines)).

(** The user prompt; the two interpolated values go through ToString, which
    may throw. *)
Definition userPrompt (toneValue scenarioValue : value) (text : jsstring) : option jsstring :=
  t ← ToString toneValue;
  s ← ToString scenarioValue;
  Some (trim (
    lit (nl ++ "[tone]: ") ++ t ++
    lit (nl ++ "[scenario]: ") ++ s ++
    lit (nl ++ nl ++ "[고객 텍스트]:" ++ nl) ++ text ++
    lit (nl ++ nl ++ "위 [scenario]에 맞는 상황이라고 가정하고, 위의 규칙을 지키면서 하나의 답변만 작성해 줘."
         ++ nl ++ "문단은 1~3문단 이내로 자연스럽게 나눠 써 줘."
         ++ nl ++ "응답에는 한국어 답변 텍스트만 작성해 줘 (메타 정보, 리스트, 헤더 등 금지)."
         ++ nl))).

(** ** The handler *)

(** The locals that are still read after the await. *)
Record frame : Type := {
  f_key : jsstring;
  f_used : Z;
  f_limit : Z;
  f_isPro : bool
}.

(** How far the handler got when it reaches its only await. *)
Inductive progress : Type :=
| Sent (r : response)
| Awaiting (rq : provider_request) (fr : frame).

Definition toneValue (f : request_fields) : value := or_else (tone f) (VStr (lit "friendly")).
Definition scenarioValue (f : request_fields) : value := or_else (scenario f) (VStr (lit "general")).

(** [(clipboardText || '').toString().trim()] *)
Definition text (f : request_fields) : option jsstring :=
  trim <$> call_toString (or_else (clipboardText f) (VStr [])).

Definition PRO_KEY : jsstring := lit "GOOD_SELLER_2025".

Definition is_pro (f : request_fields) : bool := strict_equals_string (licenseKey f) PRO_KEY.

Definition limit_of (pro : bool) : Z := if pro then 999 else 5.

(** [`usage:${clientId || 'anon'}:${todayStr()}`] *)
Definition usage_key (clientId : value) (now : Date) : option jsstring :=
  c ← ToString (or_else clientId (VStr (lit "anon")));
  Some (lit "usage:" ++ c ++ lit ":" ++ todayStr now).

Definition quota_exceeded (used limit : Z) (pro : bool) : response :=
  {| status := 200;
     json := {| ok := false; reply := []; todayUsage := used; todayLimit := limit;
                isPro := pro; message := lit "무료 사용량(하루 5회)을 초과했습니다." |} |}.

(** The argument of the call: model [gpt-5-mini], the system prompt as the
    system message and the user prompt as the user message. *)
Definition create_request (systemPrompt userPrompt : jsstring) : provider_request :=
  {| model := lit "gpt-5-mini"; system_text := systemPrompt; user_text := userPrompt |}.

(** Lines 22 to 150 of the source: everything the handler does up to the
    provider call. *)
Definition before_await (body : value) (now : Date) : M progress :=
  let f := destructure body in
  let toneValue := toneValue f in
  let scenarioValue := scenarioValue f in
  text ← attempt (text f);
  let isPro := is_pro f in
  let limit := limit_of isPro in
  key ← attempt (usage_key (clientId f) now);
  used ← usage_get_or key 0;
  if negb isPro && (limit <=? used)%Z then
    mret (Sent (quota_exceeded used limit isPro))
  else
    _ ← usage_set key (used + 1);
    user ← attempt (userPrompt toneValue scenarioValue text);
    mret (Awaiting (create_request systemPrompt user)
                   {| f_key := key; f_used := used; f_limit := limit; f_isPro := isPro |}).

(** [for (const c of content)]: an array gives its elements and a string its
    characters, each one a string; any other value is not iterable. *)
Definition iterate (content : value) : option (list value) :=
  match content with
  | VArr elems => Some elems
  | VStr s => Some (map (fun u => VStr [u]) s)
  | _ => None
  end.

(** The inner loop of the output parsing. *)
Fixpoint collect_parts (parts : list value) (replyText : jsstring) : option jsstring :=
  match parts with
  | [] => Some replyText
  | c :: rest =>
      ty ← get c (lit "type");
      if strict_equals_string ty (lit "output_text") then
        match get_optional c (lit "text") with
        | VStr t => collect_parts rest (replyText ++ t)
        | _ => collect_parts rest replyText
        end
      else collect_parts rest replyText
  end.

(** The outer loop. *)
Fixpoint collect_items (items : list value) (replyText : jsstring) : option jsstring :=
  match items with
  | [] => Some replyText
  | item :: rest =>
      let content := get_optional item (lit "content") in
      if negb (truthy content) then collect_items rest replyText
      else
        parts ← iterate content;
        r ← collect_parts parts replyText;
        collect_items rest r
  end.

(** Lines 153 to 166: the reply text read off the provider's result. *)
Definition extract_reply (ai : value) : option jsstring :=
  trim <$>
    (if truthy ai then
       match get_optional ai (lit "output") with
       | VArr items => collect_items items []
       | _ => Some []
       end
     else Some []).

Definition generation_failed (usage limit : Z) (pro : bool) : response :=
  {| status := 200;
     json := {| ok := false; reply := []; todayUsage := usage; todayLimit := limit;
                isPro := pro; message := lit "응답 생성에 실패했습니다. 잠시 후 다시 시도해 주세요." |} |}.

Definition generated (replyText : jsstring) (usage limit : Z) (pro : bool) : response :=
  {| status := 200;
     json := {| ok := true; reply := replyText; todayUsage := usage; todayLimit := limit;
                isPro := pro;
                message := if pro then lit "생성 완료(프로)" else lit "생성 완료" |} |}.

(** Lines 152 to 187: what the handler does with the provider's result. *)
Definition after_await (fr : frame) (ai : value) : M response :=
  replyText ← attempt (extract_reply ai);
  usage ← usage_get_or (f_key fr) (f_used fr + 1);
  match replyText with
  | [] => mret (generation_failed usage (f_limit fr) (f_isPro fr))
  | _ :: _ => mret (generated replyText usage (f_limit fr) (f_isPro fr))
  end.

(** The body of the [try]. *)
Definition try_block (openai : provider) (body : value) (now : Date) : M response :=
  p ← before_await body now;
  match p with
  | Sent r => mret r
  | Awaiting rq fr =>
      ai ← responses_create openai rq;
      after_await fr ai
  end.

(** The response of the [catch] block. *)
Definition server_error : response :=
  {| status := 200;
     json := {| ok := false; reply := []; todayUsage := 0; todayLimit := 5;
                isPro := false; message := lit "서버 오류가 발생했습니다. 잠시 후 다시 시도해 주세요." |} |}.

(** [generateHandler]: the [try] block, and the [catch] that answers any
    throw with [server_error].  The result is the response sent and the
    state left behind. *)
Definition generateHandler (openai : provider) (body : value) (now : Date) (w : world)
  : response * world :=
  match try_block openai body now w with
  | (Normal r, w') => (r, w')
  | (Throw, w') => (server_error, w')
  end.

(** ** Serving a sequence of requests, one after the other

    Each request is served to its end before the next one starts.  (What the
    handler does before its await is synchronous, so the decisions of the
    gate and the increments of overlapping requests are those of serving them
    in the order in which they arrive.) *)

Record job : Type := {
  job_body : value;
  job_now : Date;
  job_openai : provider
}.

(** One request served: the state it found, the response sent, the state it
    left. *)
Record served : Type := {
  before : world;
  sent : response;
  after : world
}.

Fixpoint serve (jobs : list job) (w : world) : list served :=
  match jobs with
  | [] => []
  | j :: rest =>
      let rw := generateHandler (job_openai j) (job_body j) (job_now j) w in
      {| before := w; sent := rw.1; after := rw.2 |} :: serve rest rw.2
  end.

(** ** The states the handler moves through *)

(** The count the gate reads for a key: [usageCounter.get(key) || 0]. *)
Definition used_of (w : world) (key : jsstring) : Z := default 0%Z (usageCounter w !! key).

(** The state after [usageCounter.set(key, used + 1)]. *)
Definition bump (key : jsstring) (w : world) : world :=
  {| usageCounter := <[key := (used_of w key + 1)%Z]> (usageCounter w); invoked := invoked w |}.

(** The state after the provider was called with [rq]. *)
Definition called (rq : provider_request) (w : world) : world :=
  {| usageCounter := usageCounter w; invoked := invoked w ++ [rq] |}.

(** The gate lets the request through. *)
Definition admits (f : request_fields) (used : Z) : bool :=
  negb (negb (is_pro f) && (limit_of (is_pro f) <=? used)%Z).


(** ** Reference values for the statements below *)

Definition recognised_tones : list value :=
  [VStr (lit "friendly"); VStr (lit "business"); VStr (lit "principle")].

Definition recognised_scenarios : list value :=
  [VStr (lit "general"); VStr (lit "claim"); VStr (lit "review")].

(** A state in which nothing was counted and nothing was called yet. *)
Definition fresh : world := {| usageCounter := ∅; invoked := [] |}.

Definition a_day : Date :=
  {| year := 2025; month := 11; day := 20; hours := 9; minutes := 30; seconds := 0;
     milliseconds := 0 |}.

Definition unrecognised_body : value :=
  VObj [(lit "tone", VStr (lit "angry")); (lit "scenario", VStr (lit "spam"));
        (lit "clientId", VStr (lit "shop_1"))].

(** A request of the free tier from client [cid] on the day of [day0] that
    gets as far as the gate: its clipboardText converts to a string. *)
Definition free_request (cid : value) (day0 : Date) (j : job) : Prop :=
  let f := destructure (job_body j) in
  clientId f = cid
  /\ same_day (job_now j) day0
  /\ licenseKey f <> VStr PRO_KEY
  /\ is_Some (text f).

(** The request was admitted: one unit was added to the count of [key], no
    other entry changed, and the response is not the quota rejection. *)
Definition admitted (key : jsstring) (s : served) : Prop :=
  usageCounter (after s)
    = <[key := (used_of (before s) key + 1)%Z]> (usageCounter (before s))
  /\ message (json (sent s)) <> lit "무료 사용량(하루 5회)을 초과했습니다.".

(** The request was rejected by the gate: the quota response, reporting the
    count that was read, and a state left as it was found. *)
Definition rejected (key : jsstring) (s : served) : Prop :=
  sent s =
    {| status := 200;
       json := {| ok := false; reply := [];
                  todayUsage := used_of (before s) key;
                  todayLimit := 5; isPro := false;
                  message := lit "무료 사용량(하루 5회)을 초과했습니다." |} |}
  /\ after s = before s.

(** ** The reference definition of output extraction

    Written after the specification, not after the code: the provider's
    result is an ordered sequence of output segments, each holding content
    parts; the reply is the concatenation, in order, of the text of every
    part whose kind marks it as generated text, trimmed. *)

(** The output segments of a result: the elements of its [output] array; a
    result without such an array has none. *)
Definition output_segments (ai : value) : list value :=
  if truthy ai then
    match get_optional ai (lit "output") with
    | VArr segments => segments
    | _ => []
    end
  else [].

(** The content parts of a segment: the elements of its [content] array; a
    segment without content has none. *)
Definition content_parts (segment : value) : list value :=
  match get_optional segment (lit "content") with
  | VArr parts => parts
  | _ => []
  end.

(** The text of a part of the generated-text kind: its type is
    [output_text] and its text is a string. *)
Definition generated_text (part : value) : option jsstring :=
  match get_optional part (lit "type"), get_optional part (lit "text") with
  | VStr kind, VStr t => if bool_decide (kind = lit "output_text") then Some t else None
  | _, _ => None
  end.

Definition reference_reply (ai : value) : jsstring :=
  trim (concat (omap generated_text (flat_map content_parts (output_segments ai)))).

(** The shapes the extraction has to tolerate: any number of segments, each
    one without content (absent, null or otherwise falsy) or with an array of
    content parts of whatever kind, a part being any value that is not
    [null] or [undefined]. *)
Definition tolerated_segment (segment : value) : bool :=
  let content := get_optional segment (lit "content") in
  negb (truthy content)
  || match content with
     | VArr parts => forallb (fun p => negb (nullish p)) parts
     | _ => false
     end.

Definition tolerated_result (ai : value) : bool :=
  forallb tolerated_segment (output_segments ai).

(** ** Searching the system prompt *)

Fixpoint starts_with (pat s : jsstring) : bool :=
  match pat, s with
  | [], _ => true
  | _ :: _, [] => false
  | p :: pat', c :: s' => (p =? c)%N && starts_with pat' s'
  end.

(** [indexOf_from s pat pos]: the index of the first occurrence of [pat] in
    [s], the first unit of [s] having index [pos]. *)
Fixpoint indexOf_from (s pat : jsstring) (pos : nat) : option nat :=
  if starts_with pat s then Some pos
  else match s with
       | [] => None
       | _ :: rest => indexOf_from rest pat (S pos)
       end.

(** [s.indexOf(pat)], [None] standing for -1. *)
Definition indexOf (s pat : jsstring) : option nat := indexOf_from s pat 0.

(** How many times [pat] occurs in [s]. *)
Fixpoint occurrences (s pat : jsstring) : nat :=
  (if starts_with pat s then 1 else 0)
  + match s with
    | [] => 0
    | _ :: rest => occurrences rest pat
    end.

(** The rules of one scenario in the system prompt: from the line that opens
    them up to the line that opens the rules of the next scenario. *)
Definition scenario_section (prompt opening next_opening : jsstring) : option jsstring :=
  start ← indexOf prompt opening;
  len ← indexOf (drop start prompt) next_opening;
  Some (take len (drop start prompt)).

Definition claim_opening : jsstring := lit ("- scenarioValue === " ++ dq ++ "claim" ++ dq ++ ":").
Definition review_opening : jsstring := lit ("- scenarioValue === " ++ dq ++ "review" ++ dq ++ ":").

Definition claim_order_rule : jsstring := lit "답변 구조(반드시 이 순서)".
Definition claim_apology : jsstring := lit "1) 첫 문장: 고객의 불편을 인정하고 사과/공감 표현".
Definition claim_remedy : jsstring :=
  lit "2) 다음 1~2문장: 판매자가 해줄 수 있는 구체 해결 방법 또는 진행 절차 안내".
Definition claim_closing : jsstring := lit "3) 마지막 문장: 추가 문의 시 안내 + 감사 인사".

(** ** Sample requests and provider results *)

(** The request of the README: a free-tier client asking about an item that
    arrived damaged. *)
Definition free_body : value :=
  VObj [(lit "licenseKey", VStr []);
        (lit "tone", VStr (lit "friendly"));
        (lit "scenario", VStr (lit "general"));
        (lit "clipboardText", VStr (lit "상품이 파손되어 도착했는데 어떻게 해야 하나요?"));
        (lit "clientId", VStr (lit "cs_test_1"))].

Definition pro_body : value :=
  VObj [(lit "licenseKey", VStr (lit "GOOD_SELLER_2025"));
        (lit "tone", VStr (lit "business"));
        (lit "scenario", VStr (lit "claim"));
        (lit "clipboardText", VStr (lit "반품 접수 방법을 알고 싶어요."));
        (lit "clientId", VStr (lit "cs_test_1"))].

(** The same question as [pro_body] from another client without a license. *)
Definition claim_body : value :=
  VObj [(lit "licenseKey", VStr []);
        (lit "tone", VStr (lit "business"));
        (lit "scenario", VStr (lit "claim"));
        (lit "clipboardText", VStr (lit "  반품 접수 방법을 알고 싶어요.  "));
        (lit "clientId", VStr (lit "cs_test_2"))].

(** A tone that cannot be converted to a string: an object with a property
    of its own named toString. *)
Definition unprintable_tone_body : value :=
  VObj [(lit "tone", VObj [(lit "toString", VNull)]);
        (lit "clientId", VStr (lit "cs_test_1"))].

Definition free_key : jsstring := lit "usage:cs_test_1:2025-11-20".

(** A result with a reasoning segment that has no content, and a message
    segment holding a refusal part between two text parts. *)
Definition sample_result : value :=
  VObj [(lit "id", VStr (lit "resp_1"));
        (lit "output",
         VArr [VObj [(lit "type", VStr (lit "reasoning")); (lit "summary", VArr [])];
               VObj [(lit "type", VStr (lit "message"));
                     (lit "content",
                      VArr [VObj [(lit "type", VStr (lit "output_text"));
                                  (lit "text", VStr (lit " 문의 주셔서 감사합니다."))];
                            VObj [(lit "type", VStr (lit "refusal"));
                                  (lit "refusal", VStr (lit "no"))];
                            VObj [(lit "type", VStr (lit "output_text"));
                                  (lit "text", VStr (lit " 바로 확인해 드리겠습니다. "))]])]])].

(** A result with segments but no generated text. *)
Definition empty_result : value :=
  VObj [(lit "output",
         VArr [VObj [(lit "type", VStr (lit "reasoning"))];
               VObj [(lit "type", VStr (lit "message")); (lit "content", VArr [])]])].

(** A result with no segment at all. *)
Definition bare_result : value := VObj [(lit "output", VArr [])].

(** A result whose content holds a [null] part. *)
Definition broken_result : value :=
  VObj [(lit "output", VArr [VObj [(lit "content", VArr [VNull])]])].

Definition answering : provider := fun _ => Resolves sample_result.
Definition silent : provider := fun _ => Resolves empty_result.
Definition garbling : provider := fun _ => Resolves broken_result.
Definition failing : provider := fun _ => Rejects.

Definition free_job : job :=
  {| job_body := free_body; job_now := a_day; job_openai := answering |}.

Definition pro_job : job :=
  {| job_body := pro_body; job_now := a_day; job_openai := answering |}.

(** The state after five admitted requests of [free_body] on [a_day]. *)
Definition at_limit : world :=
  {| usageCounter := {[ free_key := 5%Z ]}; invoked := [] |}.

(** ** Definitions for the further properties *)

Definition is_digit (c : N) : bool := ((48 <=? c) && (c <=? 57))%N.

(** Reading decimal digits back: the digits of [s] up to its first unit
    that is not a digit. *)
Fixpoint uint_of_digits (s : jsstring) : Decimal.uint :=
  match s with
  | [] => Decimal.Nil
  | c :: rest =>
      if (c =? 48)%N then Decimal.D0 (uint_of_digits rest)
      else if (c =? 49)%N then Decimal.D1 (uint_of_digits rest)
      else if (c =? 50)%N then Decimal.D2 (uint_of_digits rest)
      else if (c =? 51)%N then Decimal.D3 (uint_of_digits rest)
      else if (c =? 52)%N then Decimal.D4 (uint_of_digits rest)
      else if (c =? 53)%N then Decimal.D5 (uint_of_digits rest)
      else if (c =? 54)%N then Decimal.D6 (uint_of_digits rest)
      else if (c =? 55)%N then Decimal.D7 (uint_of_digits rest)
      else if (c =? 56)%N then Decimal.D8 (uint_of_digits rest)
      else if (c =? 57)%N then Decimal.D9 (uint_of_digits rest)
      else Decimal.Nil
  end.

(** The number a string of decimal digits stands for. *)
Definition parse_decimal (s : jsstring) : N := N.of_uint (uint_of_digits s).

(** The year as [toISOString] prints it. *)
Definition iso_year (y : Z) : jsstring :=
  if (0 <=? y)%Z && (y <=? 9999)%Z then pad0 4 (Z.to_N y)
  else (if (y <? 0)%Z then lit "-" else lit "+") ++ pad0 6 (Z.abs_N y).

(** The units a day string is made of: digits, and the signs of the year
    and the dashes between its parts. *)
Definition is_date_unit (c : N) : bool := is_digit c || (c =? 45)%N || (c =? 43)%N.

(** The state after serving a sequence of requests. *)
Fixpoint serve_all (jobs : list job) (w : world) : world :=
  match jobs with
  | [] => w
  | j :: rest => serve_all rest (generateHandler (job_openai j) (job_body j) (job_now j) w).2
  end.

(** The usage key of a request, when it can be formed. *)
Definition key_of (j : job) : option jsstring :=
  usage_key (clientId (destructure (job_body j))) (job_now j).

(** The request gets as far as the gate, and is counted under [key]. *)
Definition counted_under (key : jsstring) (j : job) : Prop :=
  is_Some (text (destructure (job_body j))) /\ key_of j = Some key.

(** Every count stored is at least one. *)
Definition counts_positive (w : world) : Prop :=
  forall key n, usageCounter w !! key = Some n -> (1 <= n)%Z.

(** A value ToString converts without throwing: no object with a property
    of its own named toString is met on the way, through arrays and their
    elements that are not [null] or [undefined]. *)
Fixpoint printable (v : value) : bool :=
  match v with
  | VArr elems =>
      (fix all (l : list value) : bool :=
         match l with
         | [] => true
         | e :: rest => (nullish e || printable e) && all rest
         end) elems
  | VObj props =>
      match own_property props (lit "toString") with
      | Some _ => false
      | None => true
      end
  | _ => true
  end.

(** A segment on which the output parsing throws: its content is truthy and
    is neither a string nor an array free of [null] and [undefined]. *)
Definition throwing_segment (segment : value) : bool :=
  let content := get_optional segment (lit "content") in
  truthy content
  && match content with
     | VArr parts => existsb nullish parts
     | VStr _ => false
     | _ => true
     end.

(** A provider result with the given output segments. *)
Definition with_output (segments : list value) : value :=
  VObj [(lit "output", VArr segments)].

(** The user prompt written out, without the call to trim. *)
Definition userPrompt_text (t s text : jsstring) : jsstring :=
  lit "[tone]: " ++ t ++
  lit (nl ++ "[scenario]: ") ++ s ++
  lit (nl ++ nl ++ "[고객 텍스트]:" ++ nl) ++ text ++
  lit (nl ++ nl ++ "위 [scenario]에 맞는 상황이라고 가정하고, 위의 규칙을 지키면서 하나의 답변만 작성해 줘."
       ++ nl ++ "문단은 1~3문단 이내로 자연스럽게 나눠 써 줘."
       ++ nl ++ "응답에는 한국어 답변 텍스트만 작성해 줘 (메타 정보, 리스트, 헤더 등 금지).").

(** The string does not start with white space. *)
Definition starts_clean (s : jsstring) : bool :=
  match s with
  | [] => true
  | c :: _ => negb (is_white_space c)
  end.

(** The string has no white space at either end. *)
Definition trimmed (s : jsstring) : bool := starts_clean s && starts_clean (rev s).

(** Samples for the further properties. *)
Definition other_job : job :=
  {| job_body := claim_body; job_now := a_day; job_openai := answering |}.

Definition reasoning_segment : value :=
  VObj [(lit "type", VStr (lit "reasoning")); (lit "summary", VArr [])].

Definition message_segment : value :=
  VObj [(lit "type", VStr (lit "message"));
        (lit "content",
         VArr [VObj [(lit "type", VStr (lit "output_text"));
                     (lit "text", VStr (lit "감사합니다."))]])].

(** * Properties *)

(** ** The steps of the handler *)

Lemma usage_get_or_zero key w : usage_get_or key 0 w = (Normal (used_of w key), w).
Proof.
  unfold usage_get_or, used_of.
  destruct (usageCounter w !! key) as [n|]; simpl; [|reflexivity].
  destruct (Z.eqb_spec n 0); congruence.
Qed.

Lemma usage_get_or_stored key n other w :
  usageCounter w !! key = Some n -> n = other ->
  usage_get_or key other w = (Normal n, w).
Proof.
  intros Hk ->. unfold usage_get_or. rewrite Hk.
  destruct (other =? 0)%Z; reflexivity.
Qed.

(** What [before_await] does, case by case. *)
Lemma before_await_run body now w :
  let f := destructure body in
  before_await body now w =
    match text f, usage_key (clientId f) now with
    | None, _ | _, None => (Throw, w)
    | Some t, Some key =>
        if admits f (used_of w key) then
          match userPrompt (toneValue f) (scenarioValue f) t with
          | None => (Throw, bump key w)
          | Some user =>
              (Normal (Awaiting (create_request systemPrompt user)
                 {| f_key := key; f_used := used_of w key;
                    f_limit := limit_of (is_pro f); f_isPro := is_pro f |}),
               bump key w)
          end
        else (Normal (Sent (quota_exceeded (used_of w key) (limit_of (is_pro f)) (is_pro f))), w)
    end.
Proof.
  intros f. unfold before_await, mbind, M_bind, attempt. fold f.
  destruct (text f) as [t|]; [|reflexivity].
  destruct (usage_key (clientId f) now) as [key|]; [|reflexivity].
  rewrite usage_get_or_zero. unfold admits.
  destruct (negb (is_pro f) && (limit_of (is_pro f) <=? used_of w key)%Z); simpl; [reflexivity|].
  unfold bump.
  destruct (userPrompt (toneValue f) (scenarioValue f) t); reflexivity.
Qed.

(** After the increment the stored count is the one the handler reports. *)
Lemma usage_after_bump key w inv :
  usage_get_or key (used_of w key + 1)
    {| usageCounter := usageCounter (bump key w); invoked := inv |}
  = (Normal (used_of w key + 1)%Z, {| usageCounter := usageCounter (bump key w); invoked := inv |}).
Proof.
  apply usage_get_or_stored; [|reflexivity].
  simpl. apply lookup_insert_eq.
Qed.

(** What [after_await] does in the state the handler resumes in when no
    other request ran in between. *)
Lemma after_await_run key w rq lim pro ai :
  after_await {| f_key := key; f_used := used_of w key; f_limit := lim; f_isPro := pro |}
              ai (called rq (bump key w)) =
    match extract_reply ai with
    | None => (Throw, called rq (bump key w))
    | Some [] => (Normal (generation_failed (used_of w key + 1) lim pro), called rq (bump key w))
    | Some (c :: s) => (Normal (generated (c :: s) (used_of w key + 1) lim pro), called rq (bump key w))
    end.
Proof.
  unfold after_await, mbind, M_bind, attempt. simpl f_key. simpl f_used.
  destruct (extract_reply ai) as [r|]; [|reflexivity].
  unfold called. rewrite usage_after_bump.
  destruct r; reflexivity.
Qed.

(** The whole handler on a request that reaches the gate. *)
Lemma generateHandler_run openai body now w :
  let f := destructure body in
  generateHandler openai body now w =
    match text f, usage_key (clientId f) now with
    | None, _ | _, None => (server_error, w)
    | Some t, Some key =>
        if admits f (used_of w key) then
          match userPrompt (toneValue f) (scenarioValue f) t with
          | None => (server_error, bump key w)
          | Some user =>
              match openai (create_request systemPrompt user) with
              | Rejects => (server_error, called (create_request systemPrompt user) (bump key w))
              | Resolves ai =>
                  match extract_reply ai with
                  | None => (server_error, called (create_request systemPrompt user) (bump key w))
                  | Some [] =>
                      (generation_failed (used_of w key + 1) (limit_of (is_pro f)) (is_pro f),
                       called (create_request systemPrompt user) (bump key w))
                  | Some (c :: s) =>
                      (generated (c :: s) (used_of w key + 1) (limit_of (is_pro f)) (is_pro f),
                       called (create_request systemPrompt user) (bump key w))
                  end
              end
          end
        else (quota_exceeded (used_of w key) (limit_of (is_pro f)) (is_pro f), w)
    end.
Proof.
  intros f. unfold generateHandler, try_block, mbind at 1, M_bind at 1.
  rewrite before_await_run. fold f.
  destruct (text f) as [t|]; [|reflexivity].
  destruct (usage_key (clientId f) now) as [key|]; [|reflexivity].
  destruct (admits f (used_of w key)); [|reflexivity].
  destruct (userPrompt (toneValue f) (scenarioValue f) t) as [user|]; [|reflexivity].
  unfold mbind, M_bind, responses_create. fold (called (create_request systemPrompt user) (bump key w)).
  destruct (openai _) as [|ai]; [reflexivity|].
  rewrite after_await_run.
  destruct (extract_reply ai) as [[|c s]|]; reflexivity.
Qed.

Lemma is_pro_true f : is_pro f = true <-> licenseKey f = VStr PRO_KEY.
Proof.
  unfold is_pro, strict_equals_string.
  destruct (licenseKey f); try (split; [discriminate | discriminate]).
  rewrite bool_decide_eq_true. split; congruence.
Qed.

Lemma is_pro_false f : is_pro f = false <-> licenseKey f <> VStr PRO_KEY.
Proof.
  rewrite <- is_pro_true. destruct (is_pro f); split; congruence.
Qed.

Lemma admits_pro f used : is_pro f = true -> admits f used = true.
Proof. unfold admits. intros ->. reflexivity. Qed.

Lemma admits_free f used : is_pro f = false -> admits f used = (used <? 5)%Z.
Proof.
  unfold admits. intros ->. simpl. destruct (Z.leb_spec 5 used), (Z.ltb_spec used 5); simpl; lia || reflexivity.
Qed.

(** ** Rejection by quota *)

(** C2: when the gate rejects a request (it is not pro and the stored count
    read for its key has reached the limit), the handler answers with status
    200, ok=false, an empty reply, todayUsage equal to the count that was
    read, todayLimit 5, isPro=false and the fixed quota message; the state is
    left as it was, so the counter is not incremented and no call to the
    provider is logged. *)
Theorem C2_rejected_by_quota openai body now w t key :
  let f := destructure body in
  text f = Some t ->
  usage_key (clientId f) now = Some key ->
  licenseKey f <> VStr PRO_KEY ->
  (limit_of (is_pro f) <= used_of w key)%Z ->
  generateHandler openai body now w =
    ({| status := 200;
        json := {| ok := false; reply := []; todayUsage := used_of w key;
                   todayLimit := 5; isPro := false;
                   message := lit "무료 사용량(하루 5회)을 초과했습니다." |} |},
     w)
  /\ usageCounter (generateHandler openai body now w).2 = usageCounter w
  /\ invoked (generateHandler openai body now w).2 = invoked w.
Proof.
  intros f Ht Hk Hfree Hused.
  apply is_pro_false in Hfree.
  assert (generateHandler openai body now w = (quota_exceeded (used_of w key) 5 false, w)) as E.
  { rewrite generateHandler_run. fold f. rewrite Ht, Hk.
    rewrite (admits_free _ _ Hfree), Hfree in *. simpl in Hused.
    destruct (Z.ltb_spec (used_of w key) 5); [lia | reflexivity]. }
  rewrite E. auto.
Qed.

(** ** Admission *)

(** The state an admitted request leaves behind, whatever happens after the
    gate. *)
Lemma admission_state openai body now w t key :
  let f := destructure body in
  text f = Some t ->
  usage_key (clientId f) now = Some key ->
  admits f (used_of w key) = true ->
  usageCounter (generateHandler openai body now w).2
    = <[key := (used_of w key + 1)%Z]> (usageCounter w).
Proof.
  intros f Ht Hk Ha. rewrite generateHandler_run. fold f. rewrite Ht, Hk, Ha.
  destruct (userPrompt _ _ t) as [user|]; [|reflexivity].
  destruct (openai _) as [|ai]; [reflexivity|].
  destruct (extract_reply ai) as [[|c s]|]; reflexivity.
Qed.

(** C3: for every admitted request (pro, or free with a count below the
    limit) the entry of its key is set to the count read plus one and no
    other key changes; this is already so in the state in which the provider
    is called (no call is logged yet at that point), and it is still so in
    the state the handler leaves, whatever the provider answers; on the
    empty-output and on the success outcome the response reports that
    incremented count. *)
Theorem C3_admission_increments_before_call openai body now w t key :
  let f := destructure body in
  let final := (generateHandler openai body now w).2 in
  text f = Some t ->
  usage_key (clientId f) now = Some key ->
  licenseKey f = VStr PRO_KEY \/ (used_of w key < limit_of (is_pro f))%Z ->
  (forall rq fr w1,
      before_await body now w = (Normal (Awaiting rq fr), w1) ->
      usageCounter w1 = <[key := (used_of w key + 1)%Z]> (usageCounter w)
      /\ invoked w1 = invoked w)
  /\ usageCounter final = <[key := (used_of w key + 1)%Z]> (usageCounter w)
  /\ usageCounter final !! key = Some (used_of w key + 1)%Z
  /\ (forall key', key' <> key -> usageCounter final !! key' = usageCounter w !! key')
  /\ (forall rq fr w1 ai r,
        before_await body now w = (Normal (Awaiting rq fr), w1) ->
        openai rq = Resolves ai ->
        extract_reply ai = Some r ->
        invoked final = invoked w ++ [rq]
        /\ (generateHandler openai body now w).1 =
             match r with
             | [] => generation_failed (used_of w key + 1) (limit_of (is_pro f)) (is_pro f)
             | _ :: _ => generated r (used_of w key + 1) (limit_of (is_pro f)) (is_pro f)
             end).
Proof.
  intros f final Ht Hk Hadm.
  assert (admits f (used_of w key) = true) as Ha.
  { destruct Hadm as [Hpro | Hlt].
    - apply admits_pro, is_pro_true, Hpro.
    - destruct (is_pro f) eqn:Hp; [apply admits_pro, Hp|].
      rewrite (admits_free _ _ Hp). simpl in Hlt. apply Z.ltb_lt, Hlt. }
  pose proof (admission_state openai body now w t key Ht Hk Ha) as Hfinal.
  fold final in Hfinal.
  split; [|split; [exact Hfinal|split; [|split]]].
  - intros rq fr w1. rewrite before_await_run. fold f. rewrite Ht, Hk, Ha.
    destruct (userPrompt _ _ t); intros [= <- <- <-] || intros [=]. split; reflexivity.
  - rewrite Hfinal. apply lookup_insert_eq.
  - intros key' Hne. rewrite Hfinal. apply lookup_insert_ne. congruence.
  - intros rq fr w1 ai r. rewrite before_await_run. fold f. rewrite Ht, Hk, Ha.
    unfold final. rewrite generateHandler_run. fold f. rewrite Ht, Hk, Ha.
    destruct (userPrompt _ _ t) as [user|]; [|discriminate].
    intros [= <- <- <-] -> ->. destruct r; split; reflexivity.
Qed.


Lemma quota_message_is_its_own :
  message (json server_error) <> lit "무료 사용량(하루 5회)을 초과했습니다."
  /\ (forall u l p, message (json (generation_failed u l p)) <> lit "무료 사용량(하루 5회)을 초과했습니다.")
  /\ (forall r u l p, message (json (generated r u l p)) <> lit "무료 사용량(하루 5회)을 초과했습니다.").
Proof.
  split; [|split]; intros.
  - vm_compute. discriminate.
  - vm_compute. discriminate.
  - cbn [generated json message]. destruct p; vm_compute; discriminate.
Qed.

(** The response of an admitted request is never the quota rejection, and
    unless it is the fallback of the catch block it carries the caller's
    tier and limit. *)
Lemma admitted_response openai body now w t key :
  let f := destructure body in
  let r := (generateHandler openai body now w).1 in
  text f = Some t ->
  usage_key (clientId f) now = Some key ->
  admits f (used_of w key) = true ->
  message (json r) <> lit "무료 사용량(하루 5회)을 초과했습니다."
  /\ (r = server_error
      \/ (isPro (json r) = is_pro f /\ todayLimit (json r) = limit_of (is_pro f)
          /\ todayUsage (json r) = (used_of w key + 1)%Z)).
Proof.
  intros f r Ht Hk Ha. unfold r. rewrite generateHandler_run. fold f. rewrite Ht, Hk, Ha.
  destruct quota_message_is_its_own as (He & Hf & Hg).
  destruct (userPrompt _ _ t) as [user|]; [|split; [exact He|left; reflexivity]].
  destruct (openai _) as [|ai]; [split; [exact He|left; reflexivity]|].
  destruct (extract_reply ai) as [[|c s]|]; simpl fst.
  - split; [apply Hf|right; repeat split].
  - split; [apply Hg|right; repeat split].
  - split; [exact He|left; reflexivity].
Qed.

Lemma serve_elem jobs : forall w s,
  s ∈ serve jobs w ->
  exists j, j ∈ jobs
    /\ sent s = (generateHandler (job_openai j) (job_body j) (job_now j) (before s)).1
    /\ after s = (generateHandler (job_openai j) (job_body j) (job_now j) (before s)).2.
Proof.
  induction jobs as [|j rest IH]; intros w s Hs; simpl in Hs.
  - apply elem_of_nil in Hs. destruct Hs.
  - apply elem_of_cons in Hs. destruct Hs as [-> | Hs].
    + exists j. split; [apply elem_of_cons; left; reflexivity|]. split; reflexivity.
    + destruct (IH _ _ Hs) as (j' & Hj & H1 & H2).
      exists j'. split; [apply elem_of_cons; right; exact Hj|]. split; assumption.
Qed.

(** ** The pro tier *)

(** C4, as the code has it: over any sequence of requests that all present
    the pro credential, served from any state, no response is the quota
    rejection, and every response either is the fallback of the catch block
    or carries isPro=true and todayLimit=999. *)
Theorem C4_pro_is_never_rejected jobs w s :
  Forall (fun j => licenseKey (destructure (job_body j)) = VStr PRO_KEY) jobs ->
  s ∈ serve jobs w ->
  message (json (sent s)) <> lit "무료 사용량(하루 5회)을 초과했습니다."
  /\ (sent s = server_error
      \/ (isPro (json (sent s)) = true /\ todayLimit (json (sent s)) = 999%Z)).
Proof.
  intros Hpro Hs.
  destruct (serve_elem _ _ _ Hs) as (j & Hj & -> & _).
  rewrite Forall_forall in Hpro. specialize (Hpro j Hj). apply is_pro_true in Hpro.
  set (f := destructure (job_body j)) in *.
  destruct (text f) as [t|] eqn:Ht; [destruct (usage_key (clientId f) (job_now j)) as [key|] eqn:Hk|].
  - destruct (admitted_response (job_openai j) (job_body j) (job_now j) (before s) t key Ht Hk
                (admits_pro _ _ Hpro)) as (Hm & [He | (Hp & Hl & _)]).
    + split; [exact Hm|left; exact He].
    + split; [exact Hm|right]. fold f in Hp, Hl. rewrite Hp, Hl, Hpro. split; reflexivity.
  - rewrite generateHandler_run. fold f. rewrite Ht, Hk. simpl fst.
    split; [exact (proj1 quota_message_is_its_own)|left; reflexivity].
  - rewrite generateHandler_run. fold f. rewrite Ht. simpl fst.
    split; [exact (proj1 quota_message_is_its_own)|left; reflexivity].
Qed.

(** ** The free tier over a day *)

Lemma split_first_ignores_rest sep (p r1 r2 : jsstring) :
  split_first sep (p ++ sep :: r1) = split_first sep (p ++ sep :: r2).
Proof.
  induction p as [|c p IH]; simpl.
  - rewrite N.eqb_refl. reflexivity.
  - destruct (c =? sep)%N; [reflexivity|]. rewrite IH. reflexivity.
Qed.

(** The key of the day depends on the calendar day only. *)
Lemma todayStr_same_day a b : same_day a b -> todayStr a = todayStr b.
Proof.
  intros (Hy & Hm & Hd). unfold todayStr, toISOString. rewrite Hy, Hm, Hd.
  change (lit "T") with [84%N].
  repeat rewrite (app_assoc _ _ ([84%N] ++ _)).
  simpl ([84%N] ++ _).
  apply split_first_ignores_rest.
Qed.

Lemma usage_key_same_day cid a b : same_day a b -> usage_key cid a = usage_key cid b.
Proof. intros H. unfold usage_key. rewrite (todayStr_same_day a b H). reflexivity. Qed.

(** Requests typed as the API documents them get as far as the gate: a
    clipboardText that is a string, or is absent, converts to a string, and so
    does a clientId that is a string or is absent. *)
Lemma text_of_string f s : clipboardText f = VStr s -> text f = Some (trim s).
Proof. unfold text, or_else. intros ->. destruct s; reflexivity. Qed.

Lemma text_of_falsy f : truthy (clipboardText f) = false -> text f = Some [].
Proof. unfold text, or_else. intros ->. reflexivity. Qed.

Lemma usage_key_of_string s now :
  s <> [] -> usage_key (VStr s) now = Some (lit "usage:" ++ s ++ lit ":" ++ todayStr now).
Proof. destruct s; [congruence|]. reflexivity. Qed.

Lemma usage_key_of_falsy cid now :
  truthy cid = false -> usage_key cid now = Some (lit "usage:anon:" ++ todayStr now).
Proof. unfold usage_key, or_else. intros ->. reflexivity. Qed.

(** One request of the free tier: admitted below five, rejected from five. *)
Lemma free_request_step cid day0 key j w :
  usage_key cid day0 = Some key ->
  free_request cid day0 j ->
  let s := {| before := w;
              sent := (generateHandler (job_openai j) (job_body j) (job_now j) w).1;
              after := (generateHandler (job_openai j) (job_body j) (job_now j) w).2 |} in
  if (used_of w key <? 5)%Z then admitted key s else rejected key s.
Proof.
  intros Hkey (Hcid & Hday & Hfree & [t Ht]) s.
  assert (usage_key (clientId (destructure (job_body j))) (job_now j) = Some key) as Hk.
  { rewrite Hcid, (usage_key_same_day cid _ _ Hday). exact Hkey. }
  apply is_pro_false in Hfree.
  destruct (used_of w key <? 5)%Z eqn:Hlt.
  - assert (admits (destructure (job_body j)) (used_of w key) = true) as Ha.
    { rewrite (admits_free _ _ Hfree). exact Hlt. }
    split.
    + apply (admission_state (job_openai j) (job_body j) (job_now j) w t key Ht Hk Ha).
    + apply (admitted_response (job_openai j) (job_body j) (job_now j) w t key Ht Hk Ha).
  - unfold rejected. simpl before. simpl sent. simpl after.
    rewrite generateHandler_run, Ht, Hk, (admits_free _ _ Hfree), Hlt, Hfree.
    split; reflexivity.
Qed.

Lemma serve_free_counts cid day0 key :
  usage_key cid day0 = Some key ->
  forall jobs w (n : nat),
    (n <= 5)%nat ->
    used_of w key = Z.of_nat n ->
    Forall (free_request cid day0) jobs ->
    forall i s, serve jobs w !! i = Some s ->
      used_of (before s) key = Z.of_nat (Nat.min (n + i) 5)
      /\ (if (used_of (before s) key <? 5)%Z then admitted key s else rejected key s).
Proof.
  intros Hkey. induction jobs as [|j rest IH]; intros w n Hn Hused Hall i s Hs.
  - destruct i; discriminate Hs.
  - apply Forall_cons in Hall. destruct Hall as [Hj Hrest].
    pose proof (free_request_step cid day0 key j w Hkey Hj) as Hstep.
    destruct i as [|i]; simpl in Hs.
    + injection Hs as <-. simpl before. split; [|exact Hstep].
      rewrite Hused. f_equal. lia.
    + cbv zeta in Hstep.
      set (w' := (generateHandler (job_openai j) (job_body j) (job_now j) w).2) in *.
      assert (used_of w' key = Z.of_nat (Nat.min (n + 1) 5)) as Hused'.
      { destruct (Z.ltb_spec (used_of w key) 5) as [Hlt | Hge].
        - destruct Hstep as [Hc _]. simpl in Hc. unfold used_of at 1. rewrite Hc, lookup_insert_eq.
          simpl. fold (used_of w key). lia.
        - destruct Hstep as [_ Hsame]. simpl in Hsame. rewrite Hsame. lia. }
      destruct (IH w' (Nat.min (n + 1) 5) ltac:(lia) Hused' Hrest i s Hs) as [Hb Hk].
      split; [|exact Hk]. rewrite Hb. f_equal. lia.
Qed.

(** C1: take any clientId whose key can be formed, any day, and any sequence
    of free-tier requests of that client on that day, each of which gets as
    far as the gate, served one after the other from a state in which
    nothing is counted for that client and day.  Then each of the first five
    requests is admitted, the count standing at its rank afterwards, and the
    sixth and every later request is rejected with todayUsage exactly 5. *)
Theorem C1_free_tier_five_per_day cid day0 key jobs w :
  usage_key cid day0 = Some key ->
  usageCounter w !! key = None ->
  Forall (free_request cid day0) jobs ->
  forall (i : nat) s, serve jobs w !! i = Some s ->
    ((i < 5)%nat ->
       admitted key s /\ usageCounter (after s) !! key = Some (Z.of_nat i + 1)%Z)
    /\ ((5 <= i)%nat ->
       rejected key s /\ todayUsage (json (sent s)) = 5%Z
       /\ usageCounter (after s) !! key = Some 5%Z).
Proof.
  intros Hkey Hfresh Hall i s Hs.
  assert (used_of w key = Z.of_nat 0) as H0. { unfold used_of. rewrite Hfresh. reflexivity. }
  destruct (serve_free_counts cid day0 key Hkey jobs w 0 ltac:(lia) H0 Hall i s Hs) as [Hb Hstep].
  simpl in Hb. split; intros Hi.
  - rewrite Nat.min_l in Hb by lia.
    destruct (Z.ltb_spec (used_of (before s) key) 5) as [_|Hge]; [|lia].
    split; [exact Hstep|]. destruct Hstep as [Hc _]. rewrite Hc, lookup_insert_eq.
    fold (used_of (before s) key). rewrite Hb. reflexivity.
  - rewrite Nat.min_r in Hb by lia.
    destruct (Z.ltb_spec (used_of (before s) key) 5) as [Hlt|_]; [lia|].
    split; [exact Hstep|]. destruct Hstep as [Hr Hsame]. rewrite Hr, Hsame. simpl.
    fold (used_of (before s) key). split; [exact Hb|].
    unfold used_of in Hb. destruct (usageCounter (before s) !! key) as [v|]; simpl in Hb.
    + rewrite Hb. reflexivity.
    + discriminate Hb.
Qed.

(** ** Tone and scenario *)

(** C5 as the spec states it fails: a tone or a scenario outside the
    recognised values is not replaced by the default.  On the body
    [{tone: "angry", scenario: "spam", clientId: "shop_1"}] the values the
    pipeline uses are "angry" and "spam", neither of them among the
    recognised ones, and they reach the provider inside the user prompt. *)
Lemma C5_unrecognised_values_pass_through :
  let f := destructure unrecognised_body in
  toneValue f = VStr (lit "angry")
  /\ (toneValue f ∉ recognised_tones)
  /\ scenarioValue f = VStr (lit "spam")
  /\ (scenarioValue f ∉ recognised_scenarios)
  /\ user_text <$> invoked (generateHandler (fun _ => Rejects) unrecognised_body a_day fresh).2
     = [lit ("[tone]: angry" ++ nl ++ "[scenario]: spam" ++ nl ++ nl ++ "[고객 텍스트]:" ++ nl
             ++ nl ++ nl
             ++ "위 [scenario]에 맞는 상황이라고 가정하고, 위의 규칙을 지키면서 하나의 답변만 작성해 줘."
             ++ nl ++ "문단은 1~3문단 이내로 자연스럽게 나눠 써 줘."
             ++ nl ++ "응답에는 한국어 답변 텍스트만 작성해 줘 (메타 정보, 리스트, 헤더 등 금지).")].
Proof.
  cbv zeta. split; [reflexivity|]. split; [|split; [reflexivity|split]].
  - vm_compute. intros H. repeat (apply elem_of_cons in H; destruct H as [H|H]; [discriminate H|]).
    apply elem_of_nil in H. exact H.
  - vm_compute. intros H. repeat (apply elem_of_cons in H; destruct H as [H|H]; [discriminate H|]).
    apply elem_of_nil in H. exact H.
  - vm_compute. reflexivity.
Qed.

(** C5, as the code has it: a tone that is absent or falsy (undefined, null,
    false, 0, the empty string) is replaced by friendly and any other tone is
    used as it was given, so a recognised tone stays what it is, and the tone
    value is among the recognised ones whenever the tone given was absent,
    falsy or recognised; likewise for the scenario with general. *)
Theorem C5_defaults_replace_falsy_values_only body :
  let f := destructure body in
  (truthy (tone f) = false -> toneValue f = VStr (lit "friendly"))
  /\ (truthy (tone f) = true -> toneValue f = tone f)
  /\ (truthy (tone f) = false \/ tone f ∈ recognised_tones -> toneValue f ∈ recognised_tones)
  /\ (truthy (scenario f) = false -> scenarioValue f = VStr (lit "general"))
  /\ (truthy (scenario f) = true -> scenarioValue f = scenario f)
  /\ (truthy (scenario f) = false \/ scenario f ∈ recognised_scenarios ->
      scenarioValue f ∈ recognised_scenarios).
Proof.
  intros f. unfold toneValue, scenarioValue, or_else.
  repeat split; try (intros ->; reflexivity).
  - intros [-> | H]; [apply elem_of_cons; left; reflexivity|].
    assert (truthy (tone f) = true) as ->; [|exact H].
    unfold recognised_tones in H.
    repeat (apply elem_of_cons in H; destruct H as [-> | H]; [reflexivity|]).
    apply elem_of_nil in H. destruct H.
  - intros [-> | H]; [apply elem_of_cons; left; reflexivity|].
    assert (truthy (scenario f) = true) as ->; [|exact H].
    unfold recognised_scenarios in H.
    repeat (apply elem_of_cons in H; destruct H as [-> | H]; [reflexivity|]).
    apply elem_of_nil in H. destruct H.
Qed.
(** ** What reaches the provider *)

Lemma invoked_by_handler openai body now w :
  invoked (generateHandler openai body now w).2 = invoked w
  \/ exists t user,
       text (destructure body) = Some t
       /\ userPrompt (toneValue (destructure body)) (scenarioValue (destructure body)) t = Some user
       /\ invoked (generateHandler openai body now w).2
          = invoked w ++ [create_request systemPrompt user].
Proof.
  rewrite generateHandler_run.
  destruct (text _) as [t|]; [|left; reflexivity].
  destruct (usage_key _ now) as [key|]; [|left; reflexivity].
  destruct (admits _ _); [|left; reflexivity].
  destruct (userPrompt _ _ t) as [user|] eqn:Hu; [|left; reflexivity].
  right. exists t, user. split; [reflexivity|]. split; [exact Hu|].
  destruct (openai _) as [|ai]; [reflexivity|].
  destruct (extract_reply ai) as [[|c s]|]; reflexivity.
Qed.

(** C10: two runs of the handler whose requests agree on the tone value, the
    scenario value and the trimmed customer text submit identical requests to
    the provider (same model, same system prompt, same user prompt) whenever
    both reach it, whatever their licenseKey and clientId, the clock, the
    state of the counter and the behaviour of the provider. *)
Theorem C10_prompts_ignore_license_and_client
    openai1 openai2 body1 body2 now1 now2 w1 w2 rq1 rq2 :
  let f1 := destructure body1 in
  let f2 := destructure body2 in
  toneValue f1 = toneValue f2 ->
  scenarioValue f1 = scenarioValue f2 ->
  text f1 = text f2 ->
  invoked (generateHandler openai1 body1 now1 w1).2 = invoked w1 ++ [rq1] ->
  invoked (generateHandler openai2 body2 now2 w2).2 = invoked w2 ++ [rq2] ->
  rq1 = rq2.
Proof.
  intros f1 f2 Htone Hscen Htext H1 H2.
  destruct (invoked_by_handler openai1 body1 now1 w1) as [E1 | (t1 & u1 & Ht1 & Hu1 & E1)];
    rewrite E1 in H1.
  { apply (f_equal length) in H1. rewrite length_app in H1. simpl in H1. lia. }
  destruct (invoked_by_handler openai2 body2 now2 w2) as [E2 | (t2 & u2 & Ht2 & Hu2 & E2)];
    rewrite E2 in H2.
  { apply (f_equal length) in H2. rewrite length_app in H2. simpl in H2. lia. }
  apply app_inv_head in H1. apply app_inv_head in H2.
  injection H1 as <-. injection H2 as <-.
  fold f1 in Ht1, Hu1. fold f2 in Ht2, Hu2.
  rewrite Htext, Ht2 in Ht1. injection Ht1 as ->.
  rewrite Htone, Hscen, Hu2 in Hu1. injection Hu1 as ->.
  reflexivity.
Qed.

(** ** The claim rules of the system prompt *)

(** C8: the system prompt sent to the provider, for a request of scenario
    claim as for any other, holds a claim section (from the line that opens the claim rules
    to the line that opens the review rules) in which the rule that the
    structure must follow this order, the apology or empathy element, the
    concrete remedy or procedure element and the closing element (guidance on
    further questions plus thanks) each occur exactly once and in that
    order, each one starting after the one before it has ended. *)
Theorem C8_claim_structure_in_order body now w rq fr w1 :
  before_await body now w = (Normal (Awaiting rq fr), w1) ->
  exists section i_rule i_apology i_remedy i_closing,
    scenario_section (system_text rq) claim_opening review_opening = Some section
    /\ indexOf section claim_order_rule = Some i_rule
    /\ indexOf section claim_apology = Some i_apology
    /\ indexOf section claim_remedy = Some i_remedy
    /\ indexOf section claim_closing = Some i_closing
    /\ occurrences section claim_order_rule = 1%nat
    /\ occurrences section claim_apology = 1%nat
    /\ occurrences section claim_remedy = 1%nat
    /\ occurrences section claim_closing = 1%nat
    /\ (i_rule + length claim_order_rule <= i_apology)%nat
    /\ (i_apology + length claim_apology <= i_remedy)%nat
    /\ (i_remedy + length claim_remedy <= i_closing)%nat.
Proof.
  rewrite before_await_run.
  destruct (text _) as [t|]; [|discriminate].
  destruct (usage_key _ now) as [key|]; [|discriminate].
  destruct (admits _ _); [|discriminate].
  destruct (userPrompt _ _ t) as [user|]; [|discriminate].
  intros [= <- _ _]. cbn [system_text create_request].
  eexists. exists 93%nat, 114%nat, 149%nat, 200%nat.
  split; [vm_compute; reflexivity|].
  vm_compute. repeat split; lia.
Qed.

(** ** Output extraction *)

Lemma get_not_nullish c name : nullish c = false -> is_Some (get c name).
Proof. destruct c; simpl; intros H; try discriminate H; eexists; reflexivity. Qed.

Lemma generated_text_of_type c ty :
  get c (lit "type") = Some ty ->
  generated_text c =
    if strict_equals_string ty (lit "output_text") then
      match get_optional c (lit "text") with
      | VStr t => Some t
      | _ => None
      end
    else None.
Proof.
  intros H. unfold generated_text. unfold get_optional at 1. rewrite H. simpl default.
  destruct ty; try reflexivity.
  unfold strict_equals_string.
  destruct (get_optional c (lit "text")); destruct (bool_decide _); reflexivity.
Qed.

Lemma generated_text_nullish c : get c (lit "type") = None -> generated_text c = None.
Proof. destruct c; try discriminate; reflexivity. Qed.

Lemma collect_parts_sound parts : forall acc r,
  collect_parts parts acc = Some r ->
  r = acc ++ concat (omap generated_text parts).
Proof.
  induction parts as [|c parts IH]; intros acc r H.
  - injection H as <-. simpl. rewrite app_nil_r. reflexivity.
  - cbn [collect_parts] in H.
    destruct (get c (lit "type")) as [ty|] eqn:Hty; [|discriminate H].
    cbn [mbind option_bind] in H. cbn [omap list_omap].
    rewrite (generated_text_of_type c ty Hty).
    destruct (strict_equals_string ty (lit "output_text")).
    + destruct (get_optional c (lit "text")); try (apply IH; exact H).
      cbn [concat]. rewrite app_assoc. apply IH. exact H.
    + apply IH. exact H.
Qed.

Lemma collect_parts_total parts :
  forallb (fun p => negb (nullish p)) parts = true ->
  forall acc, is_Some (collect_parts parts acc).
Proof.
  induction parts as [|c parts IH]; intros Hall acc.
  - eexists. reflexivity.
  - cbn [forallb] in Hall. apply andb_true_iff in Hall. destruct Hall as [Hc Hall].
    apply negb_true_iff in Hc.
    destruct (get_not_nullish c (lit "type") Hc) as [ty Hty].
    cbn [collect_parts]. rewrite Hty. cbn [mbind option_bind].
    destruct (strict_equals_string ty (lit "output_text")); [|apply IH, Hall].
    destruct (get_optional c (lit "text")); apply IH, Hall.
Qed.

(** Iterating over a string visits strings, which have no type. *)
Lemma collect_parts_characters s : forall acc,
  collect_parts (map (fun u => VStr [u]) s) acc = Some acc.
Proof.
  induction s as [|u s IH]; intros acc; [reflexivity|].
  cbn [map collect_parts get mbind option_bind strict_equals_string]. apply IH.
Qed.

Lemma collect_items_sound items : forall acc r,
  collect_items items acc = Some r ->
  r = acc ++ concat (omap generated_text (flat_map content_parts items)).
Proof.
  induction items as [|item items IH]; intros acc r H.
  - injection H as <-. simpl. rewrite app_nil_r. reflexivity.
  - cbn [collect_items] in H. cbn [flat_map]. unfold content_parts at 1.
    destruct (truthy (get_optional item (lit "content"))) eqn:Htruthy; cbn [negb] in H.
    + destruct (get_optional item (lit "content")) as [| |b|n|s|parts|props];
        try discriminate Htruthy; cbn [iterate mbind option_bind] in H; try discriminate H.
      * rewrite collect_parts_characters in H. cbn [mbind option_bind] in H.
        cbn [app]. apply IH. exact H.
      * destruct (collect_parts parts acc) as [r1|] eqn:Hparts; [|discriminate H].
        cbn [mbind option_bind] in H.
        rewrite omap_app, concat_app, app_assoc.
        rewrite <- (collect_parts_sound _ _ _ Hparts). apply IH. exact H.
    + destruct (get_optional item (lit "content")); try discriminate Htruthy;
        cbn [app]; apply IH; exact H.
Qed.

Lemma collect_items_total items :
  forallb tolerated_segment items = true ->
  forall acc, is_Some (collect_items items acc).
Proof.
  induction items as [|item items IH]; intros Hall acc.
  - eexists. reflexivity.
  - cbn [forallb] in Hall. apply andb_true_iff in Hall. destruct Hall as [Hseg Hall].
    cbn [collect_items]. unfold tolerated_segment in Hseg.
    destruct (truthy (get_optional item (lit "content"))); cbn [negb orb] in *.
    + destruct (get_optional item (lit "content")); try discriminate Hseg.
      cbn [iterate mbind option_bind].
      destruct (collect_parts_total _ Hseg acc) as [r1 ->]. cbn [mbind option_bind].
      apply IH, Hall.
    + apply IH, Hall.
Qed.

Lemma extract_reply_sound ai r : extract_reply ai = Some r -> r = reference_reply ai.
Proof.
  unfold extract_reply, reference_reply, output_segments.
  destruct (truthy ai).
  - destruct (get_optional ai (lit "output")); cbn [fmap option_fmap option_map];
      try (intros [= <-]; reflexivity).
    destruct (collect_items elems []) as [r0|] eqn:H; [|discriminate].
    cbn. intros [= <-]. rewrite (collect_items_sound _ _ _ H). reflexivity.
  - intros [= <-]. reflexivity.
Qed.

Lemma extract_reply_total ai : tolerated_result ai = true -> is_Some (extract_reply ai).
Proof.
  unfold tolerated_result, extract_reply, output_segments.
  destruct (truthy ai); [|intros _; eexists; reflexivity].
  destruct (get_optional ai (lit "output")); try (intros _; eexists; reflexivity).
  intros Hall. destruct (collect_items_total _ Hall []) as [r ->]. eexists. reflexivity.
Qed.

(** C6: the extraction computes the reference definition.  On every result
    of a tolerated shape (no segment, segments without content, parts of any
    kind) it returns, without throwing, the trimmed concatenation in order of
    the text of the [output_text] parts with a string text; on no result at
    all does it return anything else; and when what it returns is empty the
    handler answers with the empty-output response (status 200, ok=false,
    empty reply, the retry message, the incremented count and the tier of the
    admission). *)
Theorem C6_extraction_is_the_reference ai :
  (tolerated_result ai = true -> extract_reply ai = Some (reference_reply ai))
  /\ (forall r, extract_reply ai = Some r -> r = reference_reply ai)
  /\ (forall openai body now w rq fr w1,
        before_await body now w = (Normal (Awaiting rq fr), w1) ->
        openai rq = Resolves ai ->
        extract_reply ai = Some [] ->
        (generateHandler openai body now w).1 =
          {| status := 200;
             json := {| ok := false; reply := []; todayUsage := (f_used fr + 1)%Z;
                        todayLimit := f_limit fr; isPro := f_isPro fr;
                        message := lit "응답 생성에 실패했습니다. 잠시 후 다시 시도해 주세요." |} |}).
Proof.
  split; [|split].
  - intros Htol. destruct (extract_reply_total ai Htol) as [r Hr].
    rewrite Hr. f_equal. apply extract_reply_sound, Hr.
  - intros r. apply extract_reply_sound.
  - intros openai body now w rq fr w1. rewrite before_await_run, generateHandler_run.
    destruct (text _) as [t|]; [|discriminate].
    destruct (usage_key _ now) as [key|]; [|discriminate].
    destruct (admits _ _); [|discriminate].
    destruct (userPrompt _ _ t) as [user|]; [|discriminate].
    intros [= <- <- <-] -> ->. reflexivity.
Qed.
(** ** The catch block *)

(** C7: a throw anywhere in the try block is answered with exactly the
    fallback envelope (status 200, ok=false, empty reply, todayUsage 0,
    todayLimit 5, isPro=false, the generic message), whatever the state and
    the request; this covers a fault while composing the user prompt, a
    rejected provider call and a fault while reading the provider's
    result. *)
Theorem C7_faults_map_to_fallback openai body now w :
  let fallback :=
    {| status := 200;
       json := {| ok := false; reply := []; todayUsage := 0; todayLimit := 5;
                  isPro := false;
                  message := lit "서버 오류가 발생했습니다. 잠시 후 다시 시도해 주세요." |} |} in
  let f := destructure body in
  (forall w', try_block openai body now w = (Throw, w') ->
     generateHandler openai body now w = (fallback, w'))
  /\ (forall t key,
        text f = Some t -> usage_key (clientId f) now = Some key ->
        admits f (used_of w key) = true ->
        userPrompt (toneValue f) (scenarioValue f) t = None ->
        (generateHandler openai body now w).1 = fallback)
  /\ (forall rq fr w1,
        before_await body now w = (Normal (Awaiting rq fr), w1) ->
        openai rq = Rejects ->
        (generateHandler openai body now w).1 = fallback)
  /\ (forall rq fr w1 ai,
        before_await body now w = (Normal (Awaiting rq fr), w1) ->
        openai rq = Resolves ai ->
        extract_reply ai = None ->
        (generateHandler openai body now w).1 = fallback).
Proof.
  intros fallback f. split; [|split; [|split]].
  - intros w' H. unfold generateHandler. rewrite H. reflexivity.
  - intros t key Ht Hk Ha Hu. rewrite generateHandler_run. fold f.
    rewrite Ht, Hk, Ha, Hu. reflexivity.
  - intros rq fr w1. rewrite before_await_run, generateHandler_run. fold f.
    destruct (text f) as [t|]; [|discriminate].
    destruct (usage_key (clientId f) now) as [key|]; [|discriminate].
    destruct (admits f (used_of w key)); [|discriminate].
    destruct (userPrompt _ _ t) as [user|]; [|discriminate].
    intros [= <- <- <-] ->. reflexivity.
  - intros rq fr w1 ai. rewrite before_await_run, generateHandler_run. fold f.
    destruct (text f) as [t|]; [|discriminate].
    destruct (usage_key (clientId f) now) as [key|]; [|discriminate].
    destruct (admits f (used_of w key)); [|discriminate].
    destruct (userPrompt _ _ t) as [user|]; [|discriminate].
    intros [= <- <- <-] -> ->. reflexivity.
Qed.

(** ** The status code *)

(** C9: whatever the request, the clock, the state and the behaviour of the
    provider, the handler returns a response (it is a total function: every
    throw of its body is caught), that response is one of the four envelopes
    (quota rejection, empty output, success, fallback of the catch block),
    and its status is 200. *)
Theorem C9_status_is_always_200 openai body now w :
  let r := (generateHandler openai body now w).1 in
  status r = 200%Z
  /\ ((exists used limit pro, r = quota_exceeded used limit pro)
      \/ (exists usage limit pro, r = generation_failed usage limit pro)
      \/ (exists replyText usage limit pro, r = generated replyText usage limit pro)
      \/ r = server_error).
Proof.
  cbv zeta. rewrite generateHandler_run.
  destruct (text _) as [t|]; [|split; [reflexivity|auto]].
  destruct (usage_key _ now) as [key|]; [|split; [reflexivity|auto]].
  destruct (admits _ _); [|split; [reflexivity|left; eauto]].
  destruct (userPrompt _ _ t) as [user|]; [|split; [reflexivity|auto]].
  destruct (openai _) as [|ai]; [split; [reflexivity|auto]|].
  destruct (extract_reply ai) as [[|c s]|]; (split; [reflexivity|]).
  - right; left; eauto.
  - right; right; left; eauto.
  - auto.
Qed.

(** * The statements at concrete requests *)

Lemma sixth_of_seven_is_served :
  exists s, serve (replicate 7 free_job) fresh !! 5%nat = Some s.
Proof. eexists. vm_compute. reflexivity. Qed.

Lemma twentieth_of_twenty_is_served :
  exists s, serve (replicate 20 pro_job) fresh !! 19%nat = Some s.
Proof. eexists. vm_compute. reflexivity. Qed.

Lemma free_body_reaches_provider :
  exists rq fr w1, before_await free_body a_day fresh = (Normal (Awaiting rq fr), w1).
Proof. do 3 eexists. vm_compute. reflexivity. Qed.

Lemma pro_body_reaches_provider :
  exists rq fr w1, before_await pro_body a_day at_limit = (Normal (Awaiting rq fr), w1).
Proof. do 3 eexists. vm_compute. reflexivity. Qed.

Lemma claim_body_reaches_provider :
  exists rq fr w1, before_await claim_body a_day fresh = (Normal (Awaiting rq fr), w1).
Proof. do 3 eexists. vm_compute. reflexivity. Qed.

Lemma unprintable_tone_throws :
  exists w1, try_block answering unprintable_tone_body a_day fresh = (Throw, w1).
Proof. eexists. vm_compute. reflexivity. Qed.

Lemma C1_seven_requests_in_a_day :
  exists s,
    serve (replicate 7 free_job) fresh !! 5%nat = Some s
    /\ rejected free_key s
    /\ todayUsage (json (sent s)) = 5%Z.
Proof.
  assert (usage_key (VStr (lit "cs_test_1")) a_day = Some free_key) as Hkey
    by (vm_compute; reflexivity).
  assert (usageCounter fresh !! free_key = None) as Hfresh by apply lookup_empty.
  assert (Forall (free_request (VStr (lit "cs_test_1")) a_day) (replicate 7 free_job)) as Hall.
  { apply Forall_replicate. repeat split.
    - vm_compute. discriminate.
    - exists (lit "상품이 파손되어 도착했는데 어떻게 해야 하나요?"). vm_compute. reflexivity. }
  destruct sixth_of_seven_is_served as [s E].
  exists s. split; [exact E|].
  destruct (C1_free_tier_five_per_day _ _ _ _ _ Hkey Hfresh Hall 5%nat s E) as [_ Hrej].
  destruct (Hrej ltac:(lia)) as (Hr & Hu & _).
  split; assumption.
Defined.

Lemma C2_request_at_the_limit :
  generateHandler answering free_body a_day at_limit =
    ({| status := 200;
        json := {| ok := false; reply := []; todayUsage := 5;
                   todayLimit := 5; isPro := false;
                   message := lit "무료 사용량(하루 5회)을 초과했습니다." |} |},
     at_limit)
  /\ usageCounter (generateHandler answering free_body a_day at_limit).2 = usageCounter at_limit
  /\ invoked (generateHandler answering free_body a_day at_limit).2 = [].
Proof.
  assert (used_of at_limit free_key = 5%Z) as Hused by (vm_compute; reflexivity).
  rewrite <- Hused at 1.
  refine (C2_rejected_by_quota answering free_body a_day at_limit
            (lit "상품이 파손되어 도착했는데 어떻게 해야 하나요?") free_key _ _ _ _).
  - vm_compute. reflexivity.
  - vm_compute. reflexivity.
  - vm_compute. discriminate.
  - vm_compute. discriminate.
Defined.

Lemma C3_first_request_of_the_day :
  usageCounter (generateHandler silent free_body a_day fresh).2
    = <[free_key := (used_of fresh free_key + 1)%Z]> (usageCounter fresh)
  /\ usageCounter (generateHandler silent free_body a_day fresh).2 !! free_key
     = Some (used_of fresh free_key + 1)%Z
  /\ (generateHandler silent free_body a_day fresh).1
     = generation_failed (used_of fresh free_key + 1) 5 false.
Proof.
  destruct (C3_admission_increments_before_call silent free_body a_day fresh
              (lit "상품이 파손되어 도착했는데 어떻게 해야 하나요?") free_key)
    as (_ & Hfinal & Hkey & _ & Hout).
  - vm_compute. reflexivity.
  - vm_compute. reflexivity.
  - right. vm_compute. reflexivity.
  - split; [exact Hfinal|]. split; [exact Hkey|].
    destruct free_body_reaches_provider as (rq & fr & w1 & E).
    assert (extract_reply empty_result = Some []) as Hempty by (vm_compute; reflexivity).
    destruct (Hout rq fr w1 empty_result [] E eq_refl Hempty) as [_ ->].
    f_equal; vm_compute; reflexivity.
Defined.

(** C4 as the spec states it fails: when the provider call fails, a request
    presenting the pro credential is answered with isPro=false and
    todayLimit=5. *)
Lemma C4_pro_request_with_failing_provider :
  licenseKey (destructure pro_body) = VStr PRO_KEY
  /\ isPro (json (generateHandler failing pro_body a_day fresh).1) = false
  /\ todayLimit (json (generateHandler failing pro_body a_day fresh).1) = 5%Z.
Proof. vm_compute. repeat split. Qed.

Lemma C4_twenty_pro_requests :
  exists s,
    serve (replicate 20 pro_job) fresh !! 19%nat = Some s
    /\ message (json (sent s)) <> lit "무료 사용량(하루 5회)을 초과했습니다."
    /\ (sent s = server_error
        \/ (isPro (json (sent s)) = true /\ todayLimit (json (sent s)) = 999%Z)).
Proof.
  destruct twentieth_of_twenty_is_served as [s E].
  exists s. split; [exact E|].
  refine (C4_pro_is_never_rejected (replicate 20 pro_job) fresh s _ _).
  - apply Forall_replicate. vm_compute. reflexivity.
  - apply list_elem_of_lookup. exists 19%nat. exact E.
Defined.

Lemma C5_tone_given_and_scenario_absent :
  toneValue (destructure unprintable_tone_body) = tone (destructure unprintable_tone_body)
  /\ scenarioValue (destructure unprintable_tone_body) = VStr (lit "general")
  /\ toneValue (destructure free_body) ∈ recognised_tones.
Proof.
  destruct (C5_defaults_replace_falsy_values_only unprintable_tone_body)
    as (_ & Htone & _ & Hscenario & _).
  split; [|split].
  - apply Htone. vm_compute. reflexivity.
  - apply Hscenario. vm_compute. reflexivity.
  - apply (proj1 (proj2 (proj2 (C5_defaults_replace_falsy_values_only free_body)))).
    right. apply elem_of_cons. left. vm_compute. reflexivity.
Defined.

Lemma C6_sample_results :
  extract_reply sample_result = Some (reference_reply sample_result)
  /\ reference_reply sample_result = lit "문의 주셔서 감사합니다. 바로 확인해 드리겠습니다."
  /\ extract_reply empty_result = Some (reference_reply empty_result)
  /\ reference_reply empty_result = []
  /\ extract_reply bare_result = Some (reference_reply bare_result)
  /\ reference_reply bare_result = []
  /\ exists fr,
       (generateHandler silent free_body a_day fresh).1 =
         {| status := 200;
            json := {| ok := false; reply := []; todayUsage := (f_used fr + 1)%Z;
                       todayLimit := f_limit fr; isPro := f_isPro fr;
                       message := lit "응답 생성에 실패했습니다. 잠시 후 다시 시도해 주세요." |} |}.
Proof.
  split; [|split; [|split; [|split; [|split; [|split]]]]].
  - apply (proj1 (C6_extraction_is_the_reference sample_result)). vm_compute. reflexivity.
  - vm_compute. reflexivity.
  - apply (proj1 (C6_extraction_is_the_reference empty_result)). vm_compute. reflexivity.
  - vm_compute. reflexivity.
  - apply (proj1 (C6_extraction_is_the_reference bare_result)). vm_compute. reflexivity.
  - vm_compute. reflexivity.
  - destruct free_body_reaches_provider as (rq & fr & w1 & E).
    exists fr.
    apply (proj2 (proj2 (C6_extraction_is_the_reference empty_result))
             silent free_body a_day fresh rq fr w1 E eq_refl).
    vm_compute. reflexivity.
Defined.

Lemma C7_three_faults :
  (generateHandler failing pro_body a_day at_limit).1 = server_error
  /\ (generateHandler garbling pro_body a_day at_limit).1 = server_error
  /\ (generateHandler answering unprintable_tone_body a_day fresh).1 = server_error.
Proof.
  split; [|split].
  - destruct pro_body_reaches_provider as (rq & fr & w1 & E).
    exact (proj1 (proj2 (proj2 (C7_faults_map_to_fallback failing pro_body a_day at_limit)))
             rq fr w1 E eq_refl).
  - destruct pro_body_reaches_provider as (rq & fr & w1 & E).
    refine (proj2 (proj2 (proj2 (C7_faults_map_to_fallback garbling pro_body a_day at_limit)))
              rq fr w1 broken_result E eq_refl _).
    vm_compute. reflexivity.
  - destruct unprintable_tone_throws as [w1 E].
    rewrite (proj1 (C7_faults_map_to_fallback answering unprintable_tone_body a_day fresh) w1 E).
    reflexivity.
Defined.

Lemma C8_claim_request :
  exists rq fr w1,
    before_await claim_body a_day fresh = (Normal (Awaiting rq fr), w1)
    /\ exists section i_rule i_apology i_remedy i_closing,
         scenario_section (system_text rq) claim_opening review_opening = Some section
         /\ indexOf section claim_order_rule = Some i_rule
         /\ indexOf section claim_apology = Some i_apology
         /\ indexOf section claim_remedy = Some i_remedy
         /\ indexOf section claim_closing = Some i_closing
         /\ occurrences section claim_order_rule = 1%nat
         /\ occurrences section claim_apology = 1%nat
         /\ occurrences section claim_remedy = 1%nat
         /\ occurrences section claim_closing = 1%nat
         /\ (i_rule + length claim_order_rule <= i_apology)%nat
         /\ (i_apology + length claim_apology <= i_remedy)%nat
         /\ (i_remedy + length claim_remedy <= i_closing)%nat.
Proof.
  destruct claim_body_reaches_provider as (rq & fr & w1 & E).
  exists rq, fr, w1. split; [exact E|].
  exact (C8_claim_structure_in_order claim_body a_day fresh rq fr w1 E).
Defined.

Lemma both_clients_reach_provider :
  exists rq1 rq2,
    invoked (generateHandler answering pro_body a_day fresh).2 = invoked fresh ++ [rq1]
    /\ invoked (generateHandler failing claim_body a_day at_limit).2 = invoked at_limit ++ [rq2].
Proof. do 2 eexists. split; vm_compute; reflexivity. Qed.

Lemma C10_two_clients_same_question :
  exists rq,
    invoked (generateHandler answering pro_body a_day fresh).2 = invoked fresh ++ [rq]
    /\ invoked (generateHandler failing claim_body a_day at_limit).2 = invoked at_limit ++ [rq].
Proof.
  destruct both_clients_reach_provider as (rq1 & rq2 & E1 & E2).
  exists rq1. split; [exact E1|].
  rewrite (C10_prompts_ignore_license_and_client answering failing pro_body claim_body
             a_day a_day fresh at_limit rq1 rq2) by (exact E1 || exact E2 || (vm_compute; reflexivity)).
  exact E2.
Defined.

(** * Runs of the model *)

Example todayStr_a_day : todayStr a_day = lit "2025-11-20".
Proof. vm_compute. reflexivity. Qed.

Example toISOString_a_day : toISOString a_day = lit "2025-11-20T09:30:00.000Z".
Proof. vm_compute. reflexivity. Qed.

Example ToString_array :
  ToString (VArr [VNum (NonZero (lit "1.5")); VNull; VArr [VStr (lit "x"); VBool true]; VObj []])
  = Some (lit "1.5,,x,true,[object Object]").
Proof. vm_compute. reflexivity. Qed.

Example ToString_object_with_own_toString :
  ToString (VObj [(lit "toString", VNull)]) = None.
Proof. vm_compute. reflexivity. Qed.

Example systemPrompt_length : length systemPrompt = 2330%nat.
Proof. vm_compute. reflexivity. Qed.

Example systemPrompt_starts_with_the_persona :
  starts_with (lit "너는 10년 차 쿠팡/스마트스토어 판매자로") systemPrompt = true.
Proof. vm_compute. reflexivity. Qed.

(** A first request on a fresh counter: admitted, answered, counted once. *)
Example first_free_request :
  json (generateHandler answering free_body a_day fresh).1 =
    {| ok := true; reply := lit "문의 주셔서 감사합니다. 바로 확인해 드리겠습니다.";
       todayUsage := 1; todayLimit := 5; isPro := false; message := lit "생성 완료" |}.
Proof. vm_compute. reflexivity. Qed.

(** The same client six times on one day. *)
Example six_free_requests :
  map (fun s => (ok (json (sent s)), todayUsage (json (sent s)), length (invoked (after s))))
      (serve (replicate 6 free_job) fresh)
  = [(true, 1%Z, 1%nat); (true, 2%Z, 2%nat); (true, 3%Z, 3%nat); (true, 4%Z, 4%nat);
     (true, 5%Z, 5%nat); (false, 5%Z, 5%nat)].
Proof. vm_compute. reflexivity. Qed.

(** A pro client twenty times on one day. *)
Example twenty_pro_requests :
  map (fun s => (ok (json (sent s)), isPro (json (sent s)), todayLimit (json (sent s)),
                 todayUsage (json (sent s))))
      (serve (replicate 20 pro_job) fresh)
  = map (fun n => (true, true, 999%Z, Z.of_nat n)) (seq 1 20).
Proof. vm_compute. reflexivity. Qed.

(** A fault before the gate: the clipboardText cannot be converted, nothing
    is counted. *)
Example fault_before_the_gate :
  generateHandler answering
    (VObj [(lit "clipboardText", VObj [(lit "toString", VBool true)])]) a_day fresh
  = (server_error, fresh).
Proof. vm_compute. reflexivity. Qed.

(** A fault after the gate: the tone cannot be converted, the request is
    counted and the provider is not called. *)
Example fault_after_the_gate :
  generateHandler answering unprintable_tone_body a_day fresh
  = (server_error, {| usageCounter := {[ free_key := 1%Z ]}; invoked := [] |}).
Proof. vm_compute. reflexivity. Qed.

(** * Further properties *)

(** ** Decimal digits and the day string *)

Lemma uint_of_digits_of_uint d : uint_of_digits (digits_of_uint d) = d.
Proof. induction d; simpl; congruence. Qed.

Lemma digits_of_uint_are_digits d : Forall (fun c => is_digit c = true) (digits_of_uint d).
Proof. induction d; simpl; constructor; auto. Qed.

Lemma uint_of_digits_zeros k s :
  N.of_uint (uint_of_digits (repeat 48%N k ++ s)) = N.of_uint (uint_of_digits s).
Proof. induction k as [|k IH]; [reflexivity|]. simpl. exact IH. Qed.

(** Reading back what [pad0] printed gives the number printed. *)
Lemma parse_decimal_pad0 width n : parse_decimal (pad0 width n) = n.
Proof.
  unfold parse_decimal, pad0, decimal. rewrite uint_of_digits_zeros, uint_of_digits_of_uint.
  apply DecimalN.Unsigned.of_to.
Qed.

Lemma pad0_injective width n m : pad0 width n = pad0 width m -> n = m.
Proof.
  intros H. rewrite <- (parse_decimal_pad0 width n), <- (parse_decimal_pad0 width m), H.
  reflexivity.
Qed.

Lemma pad0_digits width n : Forall (fun c => is_digit c = true) (pad0 width n).
Proof.
  unfold pad0, decimal. apply Forall_app. split.
  - apply List.Forall_forall. intros c Hc. apply repeat_spec in Hc. subst c. reflexivity.
  - apply digits_of_uint_are_digits.
Qed.

(** Splitting at the first separator: what stands before it and what stands
    after it are determined. *)
Lemma split_at_first_separator (sep : N) (a1 a2 r1 r2 : jsstring) :
  ~ In sep a1 -> ~ In sep a2 ->
  a1 ++ sep :: r1 = a2 ++ sep :: r2 ->
  a1 = a2 /\ r1 = r2.
Proof.
  revert a2. induction a1 as [|c a1 IH]; intros [|c2 a2] H1 H2 E; simpl in *.
  - injection E as <-. auto.
  - injection E as -> _. tauto.
  - injection E as -> _. tauto.
  - injection E as -> E. destruct (IH a2) as [-> ->]; auto.
Qed.

Lemma split_at_last_separator (sep : N) (a1 a2 r1 r2 : jsstring) :
  ~ In sep r1 -> ~ In sep r2 ->
  a1 ++ sep :: r1 = a2 ++ sep :: r2 ->
  a1 = a2 /\ r1 = r2.
Proof.
  intros H1 H2 E. apply (f_equal (@rev N)) in E.
  rewrite !rev_app_distr in E. simpl in E. rewrite <- !app_assoc in E. simpl in E.
  destruct (split_at_first_separator sep (rev r1) (rev r2) (rev a1) (rev a2)) as [Er Ea]; auto.
  - rewrite <- in_rev. exact H1.
  - rewrite <- in_rev. exact H2.
  - split; [apply rev_inj, Ea | apply rev_inj, Er].
Qed.

Lemma digits_exclude (c : N) (s : jsstring) :
  is_digit c = false -> Forall (fun c => is_digit c = true) s -> ~ In c s.
Proof.
  intros Hc Hs Hin. rewrite List.Forall_forall in Hs. specialize (Hs c Hin). congruence.
Qed.

Lemma split_first_found (sep : N) (a r : jsstring) :
  ~ In sep a -> split_first sep (a ++ sep :: r) = a.
Proof.
  induction a as [|c a IH]; simpl; intros H.
  - rewrite N.eqb_refl. reflexivity.
  - destruct (N.eqb_spec c sep) as [->|_]; [tauto|]. rewrite IH; tauto.
Qed.

(** The day string written out: year, month and day between dashes. *)
Lemma todayStr_parts d :
  todayStr d = iso_year (year d) ++ 45%N :: pad0 2 (month d) ++ 45%N :: pad0 2 (day d).
Proof.
  unfold todayStr, toISOString. fold (iso_year (year d)).
  change (lit "T") with [84%N]. change (lit "-") with [45%N].
  repeat rewrite (app_assoc _ _ ([84%N] ++ _)).
  simpl ([84%N] ++ _).
  rewrite split_first_found; [reflexivity|].
  assert (Forall (fun c => is_date_unit c = true)
            (iso_year (year d) ++ [45%N] ++ pad0 2 (month d) ++ [45%N] ++ pad0 2 (day d)))
    as Hall.
  { assert (forall w n, Forall (fun c => is_date_unit c = true) (pad0 w n)) as Hpad.
    { intros w n. eapply Forall_impl; [apply pad0_digits|].
      intros c Hc. unfold is_date_unit. simpl. rewrite Hc. reflexivity. }
    apply Forall_app. split.
    - unfold iso_year.
      destruct ((0 <=? year d)%Z && (year d <=? 9999)%Z); [apply Hpad|].
      apply Forall_app. split; [|apply Hpad].
      destruct (year d <? 0)%Z; repeat constructor.
    - constructor; [reflexivity|]. apply Forall_app. split; [apply Hpad|].
      constructor; [reflexivity|apply Hpad]. }
  intros Hin. rewrite List.Forall_forall in Hall. specialize (Hall _ Hin). discriminate Hall.
Qed.

Lemma iso_year_injective y1 y2 : iso_year y1 = iso_year y2 -> y1 = y2.
Proof.
  unfold iso_year.
  assert (forall w n c r, is_digit c = false -> pad0 w n <> c :: r) as Hhead.
  { intros w n c r Hc E. apply (digits_exclude c (pad0 w n) Hc (pad0_digits w n)).
    rewrite E. left. reflexivity. }
  destruct (Z.leb_spec 0 y1), (Z.leb_spec y1 9999), (Z.leb_spec 0 y2), (Z.leb_spec y2 9999);
    simpl; try lia;
    repeat match goal with
      | |- context [(?y <? 0)%Z] => destruct (Z.ltb_spec y 0); try lia
      end;
    change (lit "-") with [45%N]; change (lit "+") with [43%N]; simpl; intros E;
    try (exfalso; eapply Hhead; [|exact E]; reflexivity);
    try (exfalso; eapply Hhead; [|symmetry; exact E]; reflexivity);
    try discriminate E;
    try (injection E as E); apply pad0_injective in E; lia.
Qed.

(** Equal day strings have equal printed years, months and days. *)
Lemma todayStr_parts_equal a b :
  todayStr a = todayStr b ->
  iso_year (year a) = iso_year (year b)
  /\ pad0 2 (month a) = pad0 2 (month b)
  /\ pad0 2 (day a) = pad0 2 (day b).
Proof.
  rewrite !todayStr_parts. intros E.
  assert (forall w n, ~ In 45%N (pad0 w n)) as Hno.
  { intros w n. apply digits_exclude; [reflexivity|apply pad0_digits]. }
  change (iso_year (year a) ++ 45%N :: pad0 2 (month a) ++ 45%N :: pad0 2 (day a))
    with (iso_year (year a) ++ 45%N :: (pad0 2 (month a) ++ 45%N :: pad0 2 (day a))) in E.
  rewrite 2!app_comm_cons, 2!app_assoc in E.
  apply split_at_last_separator in E; [|apply Hno|apply Hno].
  destruct E as [E Ed].
  apply split_at_last_separator in E; [|apply Hno|apply Hno].
  destruct E as [Ey Em]. auto.
Qed.

(** X1: two readings of the clock give the same day string exactly when they
    fall on the same calendar day, so the key of a client changes at midnight
    (UTC) and at no other time. *)
Theorem X1_todayStr_identifies_the_day a b : todayStr a = todayStr b <-> same_day a b.
Proof.
  split.
  - intros E. destruct (todayStr_parts_equal a b E) as (Ey & Em & Ed).
    split; [|split].
    + apply iso_year_injective, Ey.
    + apply (pad0_injective 2), Em.
    + apply (pad0_injective 2), Ed.
  - intros (Hy & Hm & Hd). rewrite !todayStr_parts, Hy, Hm, Hd. reflexivity.
Qed.

(** ** Usage keys *)

Lemma todayStr_without_colon d : ~ In 58%N (todayStr d).
Proof.
  rewrite todayStr_parts. intros Hin.
  assert (forall w n, ~ In 58%N (pad0 w n)) as Hno.
  { intros w n. apply digits_exclude; [reflexivity|apply pad0_digits]. }
  apply in_app_or in Hin. destruct Hin as [Hin | [Hin | Hin]]; [|discriminate Hin|].
  - unfold iso_year in Hin.
    destruct ((0 <=? year d)%Z && (year d <=? 9999)%Z); [exact (Hno _ _ Hin)|].
    apply in_app_or in Hin. destruct Hin as [Hin | Hin]; [|exact (Hno _ _ Hin)].
    destruct (year d <? 0)%Z; destruct Hin as [Hin | []]; discriminate Hin.
  - apply in_app_or in Hin. destruct Hin as [Hin | [Hin | Hin]]; [|discriminate Hin|];
      exact (Hno _ _ Hin).
Qed.

(** X2: for clientIds that are strings that are not empty, two requests
    are counted under the same key exactly when they carry the same clientId
    and fall on the same calendar day: distinct clients, and distinct days of
    one client, never share a count. *)
Theorem X2_usage_key_identifies_client_and_day (c1 c2 : jsstring) (a b : Date) :
  c1 <> [] -> c2 <> [] ->
  (usage_key (VStr c1) a = usage_key (VStr c2) b <-> c1 = c2 /\ same_day a b).
Proof.
  intros H1 H2. rewrite (usage_key_of_string c1 a H1), (usage_key_of_string c2 b H2).
  split.
  - change (lit ":") with [58%N]. intros E.
    apply (inj Some), app_inv_head in E. simpl in E.
    apply split_at_last_separator in E; try apply todayStr_without_colon.
    destruct E as [-> E]. split; [reflexivity|].
    destruct (todayStr_parts_equal a b E) as (Ey & Em & Ed).
    split; [|split].
    + apply iso_year_injective, Ey.
    + apply (pad0_injective 2), Em.
    + apply (pad0_injective 2), Ed.
  - intros [-> Hday]. rewrite (todayStr_same_day a b Hday). reflexivity.
Qed.

(** ** Trimming *)

Lemma trimStart_clean s : starts_clean s = true -> trimStart s = s.
Proof. destruct s as [|c s]; [reflexivity|]. simpl. intros H. apply negb_true_iff in H. rewrite H. reflexivity. Qed.

Lemma starts_clean_trimStart s : starts_clean (trimStart s) = true.
Proof.
  induction s as [|c s IH]; [reflexivity|]. simpl.
  destruct (is_white_space c) eqn:E; [exact IH|]. simpl. rewrite E. reflexivity.
Qed.

Lemma trimStart_is_suffix s : exists p, s = p ++ trimStart s.
Proof.
  induction s as [|c s [p IH]]; [exists []; reflexivity|]. simpl.
  destruct (is_white_space c); [|exists []; reflexivity].
  exists (c :: p). simpl. rewrite <- IH. reflexivity.
Qed.

Lemma trimEnd_is_prefix s : exists q, s = trimEnd s ++ q.
Proof.
  destruct (trimStart_is_suffix (rev s)) as [p E].
  exists (rev p). unfold trimEnd. rewrite <- rev_app_distr, <- E, rev_involutive. reflexivity.
Qed.

Lemma starts_clean_prefix (x q : jsstring) : starts_clean (x ++ q) = true -> starts_clean x = true.
Proof. destruct x; [reflexivity|]. simpl. auto. Qed.

(** What [trim] returns has no white space at either end. *)
Lemma trim_trimmed s : trimmed (trim s) = true.
Proof.
  unfold trimmed, trim. apply andb_true_iff. split.
  - destruct (trimEnd_is_prefix (trimStart s)) as [q E].
    apply (starts_clean_prefix _ q). rewrite <- E. apply starts_clean_trimStart.
  - unfold trimEnd. rewrite rev_involutive. apply starts_clean_trimStart.
Qed.

(** A string without white space at either end is left as it is. *)
Lemma trim_of_trimmed s : trimmed s = true -> trim s = s.
Proof.
  unfold trimmed, trim, trimEnd. intros H. apply andb_true_iff in H. destruct H as [H1 H2].
  rewrite (trimStart_clean s H1), (trimStart_clean (rev s) H2). apply rev_involutive.
Qed.

Lemma trim_idempotent s : trim (trim s) = trim s.
Proof. apply trim_of_trimmed, trim_trimmed. Qed.

Lemma trimStart_white c s : is_white_space c = true -> trimStart (c :: s) = trimStart s.
Proof. simpl. intros ->. reflexivity. Qed.

Lemma trim_between_line_breaks s :
  trimmed s = true -> trim (10%N :: s ++ [10%N]) = s.
Proof.
  intros H. apply andb_true_iff in H. destruct H as [H1 H2].
  destruct s as [|c s]; [reflexivity|].
  change (trim (10%N :: (c :: s) ++ [10%N]))
    with (rev (trimStart (rev (trimStart (10%N :: (c :: s) ++ [10%N]))))).
  rewrite (trimStart_white 10%N) by reflexivity.
  assert (trimStart ((c :: s) ++ [10%N]) = (c :: s) ++ [10%N]) as ->.
  { apply trimStart_clean. exact H1. }
  rewrite rev_app_distr.
  change (rev [10%N] ++ rev (c :: s)) with (10%N :: rev (c :: s)).
  rewrite (trimStart_white 10%N) by reflexivity.
  rewrite (trimStart_clean _ H2). apply rev_involutive.
Qed.

(** ** The effect of a request on the state *)

Opaque systemPrompt.

(** The cases of [generateHandler_run], one goal each. *)
Ltac handler_cases openai t key user ai c s Ht Hk Ha Hu Ho He :=
  rewrite generateHandler_run;
  destruct (text _) as [t|] eqn:Ht;
  [ destruct (usage_key _ _) as [key|] eqn:Hk;
    [ destruct (admits _ _) eqn:Ha;
      [ destruct (userPrompt _ _ t) as [user|] eqn:Hu;
        [ destruct (openai (create_request systemPrompt user)) as [|ai] eqn:Ho;
          [ | destruct (extract_reply ai) as [[|c s]|] eqn:He ]
        | ]
      | ]
    | ]
  | ].

Lemma used_of_bump key w key' :
  used_of (bump key w) key' = if decide (key = key') then (used_of w key + 1)%Z else used_of w key'.
Proof.
  unfold used_of at 1. simpl. rewrite lookup_insert. destruct (decide (key = key')); reflexivity.
Qed.

(** What one request does to the state: it leaves the counter alone or adds
    one to the count of its own key, and it adds at most one call to the
    log. *)
Lemma handler_step_effect openai body now w :
  let w' := (generateHandler openai body now w).2 in
  (w' = w
   \/ exists key, usage_key (clientId (destructure body)) now = Some key
        /\ usageCounter w' = usageCounter (bump key w)
        /\ (invoked w' = invoked w \/ exists rq, invoked w' = invoked w ++ [rq])).
Proof.
  cbv zeta. handler_cases openai t key user ai c s Ht Hk Ha Hu Ho He; simpl snd; auto;
    right; exists key; (split; [reflexivity|]); (split; [reflexivity|]); simpl; eauto.
Qed.

Lemma handler_step_count openai body now w key :
  let w' := (generateHandler openai body now w).2 in
  (used_of w key <= used_of w' key <= used_of w key + 1)%Z
  /\ (usage_key (clientId (destructure body)) now <> Some key -> used_of w' key = used_of w key)
  /\ (is_Some (usageCounter w !! key) -> is_Some (usageCounter w' !! key))
  /\ (invoked w' = invoked w \/ exists rq, invoked w' = invoked w ++ [rq]).
Proof.
  cbv zeta. destruct (handler_step_effect openai body now w) as [-> | (k & Hk & Hc & Hi)].
  - repeat split; auto; lia.
  - assert (forall key', used_of (generateHandler openai body now w).2 key'
                         = used_of (bump k w) key') as Hu.
    { intros key'. unfold used_of. rewrite Hc. reflexivity. }
    rewrite !Hu, used_of_bump.
    split; [destruct (decide (k = key)) as [->|]; lia|].
    split; [intros Hne; destruct (decide (k = key)) as [->|]; [congruence|reflexivity]|].
    split; [|exact Hi].
    intros Hsome. rewrite Hc. simpl. rewrite lookup_insert.
    destruct (decide (k = key)); [simpl; eauto|exact Hsome].
Qed.

(** X4: however many requests are served and whatever they are, no count
    ever goes down and no entry is ever removed; a count grows by at most
    one per request, and the log of provider calls only grows, by at most one
    call per request. *)
Theorem X4_counts_and_calls_only_grow jobs w key :
  (used_of w key <= used_of (serve_all jobs w) key <= used_of w key + Z.of_nat (length jobs))%Z
  /\ (is_Some (usageCounter w !! key) -> is_Some (usageCounter (serve_all jobs w) !! key))
  /\ exists calls, invoked (serve_all jobs w) = invoked w ++ calls
       /\ (length calls <= length jobs)%nat.
Proof.
  revert w. induction jobs as [|j rest IH]; intros w.
  - simpl. split; [lia|]. split; [auto|]. exists []. rewrite app_nil_r. auto.
  - cbn [serve_all length].
    destruct (handler_step_count (job_openai j) (job_body j) (job_now j) w key)
      as (Hcount & _ & Hsome & Hcalls).
    destruct (IH (generateHandler (job_openai j) (job_body j) (job_now j) w).2)
      as (IHcount & IHsome & calls & IHcalls & IHlen).
    split; [lia|]. split; [auto|].
    destruct Hcalls as [E | [rq E]]; rewrite E in IHcalls.
    + exists calls. split; [exact IHcalls|lia].
    + exists (rq :: calls). split; [rewrite IHcalls, <- app_assoc; reflexivity|simpl; lia].
Qed.

(** ** Clients do not interfere *)

Lemma response_reads_own_count openai body now w1 w2 :
  (forall key, usage_key (clientId (destructure body)) now = Some key ->
               used_of w1 key = used_of w2 key) ->
  (generateHandler openai body now w1).1 = (generateHandler openai body now w2).1.
Proof.
  intros H. rewrite !generateHandler_run.
  destruct (text _) as [t|]; [|reflexivity].
  destruct (usage_key _ now) as [key|]; [|reflexivity].
  rewrite (H key eq_refl).
  destruct (admits _ _); [|reflexivity].
  destruct (userPrompt _ _ t) as [user|]; [|reflexivity].
  destruct (openai _) as [|ai]; [reflexivity|].
  destruct (extract_reply ai) as [[|c s]|]; reflexivity.
Qed.

Lemma serve_all_other_keys jobs key : forall w,
  Forall (fun j => key_of j <> Some key) jobs ->
  used_of (serve_all jobs w) key = used_of w key.
Proof.
  induction jobs as [|j rest IH]; intros w Hall; [reflexivity|].
  apply Forall_cons in Hall. destruct Hall as [Hj Hrest].
  cbn [serve_all]. rewrite (IH _ Hrest).
  apply (handler_step_count (job_openai j) (job_body j) (job_now j) w key). exact Hj.
Qed.

(** X9: the response a request gets, and the count its key is left with, do
    not depend on requests counted under other keys that were served before
    it: no client can use up or alter the quota of another. *)
Theorem X9_other_keys_do_not_interfere others j w :
  Forall (fun j' => key_of j' <> key_of j) others ->
  let alone := generateHandler (job_openai j) (job_body j) (job_now j) w in
  let after_others :=
    generateHandler (job_openai j) (job_body j) (job_now j) (serve_all others w) in
  after_others.1 = alone.1
  /\ forall key, key_of j = Some key -> used_of after_others.2 key = used_of alone.2 key.
Proof.
  intros Hall. cbv zeta.
  assert (forall key, key_of j = Some key -> used_of (serve_all others w) key = used_of w key)
    as Hsame.
  { intros key Hk. apply serve_all_other_keys. rewrite <- Hk. exact Hall. }
  split; [apply response_reads_own_count; exact Hsame|].
  intros key Hk. specialize (Hsame key Hk). unfold key_of in Hk.
  rewrite !generateHandler_run, Hk.
  destruct (text _) as [t|]; [|exact Hsame].
  rewrite Hsame.
  destruct (admits _ _); [|exact Hsame].
  destruct (userPrompt _ _ t) as [user|].
  - destruct (job_openai j _) as [|ai]; [|destruct (extract_reply ai) as [[|c s]|]];
      simpl snd; unfold called; unfold used_of; simpl; rewrite !lookup_insert_eq; simpl;
      fold (used_of (serve_all others w) key); fold (used_of w key); rewrite Hsame; reflexivity.
  - simpl snd. rewrite !used_of_bump, Hsame. reflexivity.
Qed.

(** ** Tiers share the counter *)

Lemma pro_step_count openai body now w key :
  licenseKey (destructure body) = VStr PRO_KEY ->
  is_Some (text (destructure body)) ->
  usage_key (clientId (destructure body)) now = Some key ->
  used_of (generateHandler openai body now w).2 key = (used_of w key + 1)%Z.
Proof.
  intros Hpro [t Ht] Hk. apply is_pro_true in Hpro.
  unfold used_of at 1.
  rewrite (admission_state openai body now w t key Ht Hk (admits_pro _ _ Hpro)).
  rewrite lookup_insert_eq. reflexivity.
Qed.

Lemma serve_all_pro_count key jobs : forall w,
  Forall (fun j => licenseKey (destructure (job_body j)) = VStr PRO_KEY /\ counted_under key j)
         jobs ->
  used_of (serve_all jobs w) key = (used_of w key + Z.of_nat (length jobs))%Z.
Proof.
  induction jobs as [|j rest IH]; intros w Hall; [simpl; lia|].
  apply Forall_cons in Hall. destruct Hall as [(Hpro & Ht & Hk) Hrest].
  cbn [serve_all length]. rewrite (IH _ Hrest).
  rewrite (pro_step_count _ _ _ w key Hpro Ht Hk). lia.
Qed.

(** X3: the counter has one entry per client and day, whatever the tier.
    Requests presenting the pro credential are counted like any other, so
    once a client was served five or more of them in a day, a request of the
    same client without the credential is rejected at once, reporting the
    whole count. *)
Theorem X3_pro_requests_use_up_the_free_quota key pros j w :
  Forall (fun p => licenseKey (destructure (job_body p)) = VStr PRO_KEY /\ counted_under key p)
         pros ->
  licenseKey (destructure (job_body j)) <> VStr PRO_KEY ->
  counted_under key j ->
  (5 <= used_of w key + Z.of_nat (length pros))%Z ->
  used_of (serve_all pros w) key = (used_of w key + Z.of_nat (length pros))%Z
  /\ generateHandler (job_openai j) (job_body j) (job_now j) (serve_all pros w)
     = (quota_exceeded (used_of w key + Z.of_nat (length pros)) 5 false, serve_all pros w).
Proof.
  intros Hpros Hfree ([t Ht] & Hk) Hfive.
  pose proof (serve_all_pro_count key pros w Hpros) as Hcount.
  split; [exact Hcount|].
  apply is_pro_false in Hfree. unfold key_of in Hk.
  rewrite generateHandler_run, Ht, Hk, (admits_free _ _ Hfree), Hfree, Hcount.
  destruct (Z.ltb_spec (used_of w key + Z.of_nat (length pros)) 5); [lia|reflexivity].
Qed.

(** ** The cost of a free client *)

Lemma free_calls_bounded key jobs : forall w,
  Forall (fun j => licenseKey (destructure (job_body j)) <> VStr PRO_KEY /\ counted_under key j)
         jobs ->
  exists calls, invoked (serve_all jobs w) = invoked w ++ calls
    /\ (Z.of_nat (length calls) <= Z.max 0 (5 - used_of w key))%Z.
Proof.
  induction jobs as [|j rest IH]; intros w Hall.
  - exists []. rewrite app_nil_r. split; [reflexivity|simpl; lia].
  - apply Forall_cons in Hall. destruct Hall as [(Hfree & [t Ht] & Hk) Hrest].
    apply is_pro_false in Hfree. unfold key_of in Hk. cbn [serve_all].
    destruct (IH (generateHandler (job_openai j) (job_body j) (job_now j) w).2 Hrest)
      as (calls & Hcalls & Hlen).
    revert Hcalls Hlen. rewrite generateHandler_run, Ht, Hk, (admits_free _ _ Hfree).
    destruct (Z.ltb_spec (used_of w key) 5) as [Hlt|Hge].
    + destruct (userPrompt _ _ t) as [user|];
        [destruct (job_openai j _) as [|ai]; [|destruct (extract_reply ai) as [[|c s]|]]|];
        simpl snd; intros Hcalls Hlen;
        try (assert (used_of (called (create_request systemPrompt user) (bump key w)) key
                     = used_of w key + 1)%Z as Hu
               by (unfold used_of at 1; simpl; rewrite lookup_insert_eq; reflexivity);
             rewrite Hu in Hlen; simpl in Hcalls; rewrite <- app_assoc in Hcalls;
             eexists; split; [exact Hcalls|simpl; lia]).
      rewrite used_of_bump in Hlen. destruct (decide (key = key)); [|congruence].
      exists calls. split; [exact Hcalls|lia].
    + simpl snd. intros Hcalls Hlen. exists calls. split; [exact Hcalls|lia].
Qed.

(** X15: a client without the pro credential causes at most five calls to
    the provider per key, however many requests it sends and whatever they
    contain: the calls made for it never exceed what is left of its quota. *)
Theorem X15_free_client_costs_at_most_five_calls key jobs w :
  Forall (fun j => licenseKey (destructure (job_body j)) <> VStr PRO_KEY /\ counted_under key j)
         jobs ->
  exists calls,
    invoked (serve_all jobs w) = invoked w ++ calls
    /\ (Z.of_nat (length calls) <= Z.max 0 (5 - used_of w key))%Z
    /\ (usageCounter w !! key = None -> (length calls <= 5)%nat).
Proof.
  intros Hall. destruct (free_calls_bounded key jobs w Hall) as (calls & Hcalls & Hlen).
  exists calls. split; [exact Hcalls|]. split; [exact Hlen|].
  intros Hnone. unfold used_of in Hlen. rewrite Hnone in Hlen. simpl in Hlen. lia.
Qed.

(** ** What a response says *)

Ltac read_response :=
  cbn [fst snd generated generation_failed quota_exceeded server_error
       json status ok reply todayUsage todayLimit isPro message].

Lemma messages_differ :
  (forall u l p, generation_failed u l p <> server_error)
  /\ (forall u l p, quota_exceeded u l p <> server_error)
  /\ (forall r u l p, generated r u l p <> server_error).
Proof.
  split; [|split]; intros.
  - intros E. apply (f_equal (fun r => message (json r))) in E. revert E.
    vm_compute. discriminate.
  - intros E. apply (f_equal (fun r => message (json r))) in E. revert E.
    vm_compute. discriminate.
  - intros E. apply (f_equal (fun r => ok (json r))) in E. discriminate E.
Qed.

(** X6: a response never grants more than the request is entitled to: it
    says isPro=true only when the licenseKey of the request is exactly the pro
    credential, and its todayLimit is 999 when it says isPro=true and 5 when
    it does not, on every outcome. *)
Theorem X6_no_response_upgrades_the_tier openai body now w :
  let r := (generateHandler openai body now w).1 in
  (isPro (json r) = true -> licenseKey (destructure body) = VStr PRO_KEY)
  /\ todayLimit (json r) = (if isPro (json r) then 999 else 5)%Z
  /\ (ok (json r) = true -> isPro (json r) = is_pro (destructure body)).
Proof.
  cbv zeta. handler_cases openai t key user ai c s Ht Hk Ha Hu Ho He; read_response;
    (split; [first [discriminate | apply is_pro_true] |]);
    (split; [reflexivity|]);
    first [discriminate | reflexivity].
Qed.


(** X8: the envelope is well formed on every outcome: with ok=false the
    reply is empty, and with ok=true the reply is not empty and has no white
    space at either end (trimming it again changes nothing). *)
Theorem X8_reply_is_empty_or_trimmed openai body now w :
  let r := (generateHandler openai body now w).1 in
  (ok (json r) = false -> reply (json r) = [])
  /\ (ok (json r) = true ->
        reply (json r) <> [] /\ trimmed (reply (json r)) = true
        /\ trim (reply (json r)) = reply (json r)).
Proof.
  cbv zeta. handler_cases openai t key user ai c s Ht Hk Ha Hu Ho He; read_response;
    (split; [first [reflexivity | discriminate]|]); try discriminate.
  intros _. split; [discriminate|].
  assert (exists x, c :: s = trim x) as [x ->].
  { unfold extract_reply in He. destruct (if truthy ai then _ else _) as [x|]; [|discriminate He].
    exists x. injection He as He. symmetry. exact He. }
  split; [apply trim_trimmed|apply trim_idempotent].
Qed.

(** X13: what the fallback response costs.  When the handler answers with
    the fallback of the catch block, either the fault came before the gate
    (the clipboardText or the clientId could not be converted) and the state
    is untouched, or it came after the gate and the request was counted: one
    unit was added to its key although no reply was produced, the provider
    having been called at most once. *)
Theorem X13_fallback_after_the_gate_is_counted openai body now w :
  let f := destructure body in
  let w' := (generateHandler openai body now w).2 in
  (generateHandler openai body now w).1 = server_error ->
  ((text f = None \/ usage_key (clientId f) now = None) /\ w' = w)
  \/ exists t key,
       text f = Some t
       /\ usage_key (clientId f) now = Some key
       /\ admits f (used_of w key) = true
       /\ usageCounter w' = <[key := (used_of w key + 1)%Z]> (usageCounter w)
       /\ ((userPrompt (toneValue f) (scenarioValue f) t = None /\ invoked w' = invoked w)
           \/ exists user,
                userPrompt (toneValue f) (scenarioValue f) t = Some user
                /\ invoked w' = invoked w ++ [create_request systemPrompt user]
                /\ (openai (create_request systemPrompt user) = Rejects
                    \/ exists ai, openai (create_request systemPrompt user) = Resolves ai
                                  /\ extract_reply ai = None)).
Proof.
  cbv zeta. destruct messages_differ as (Hf & Hq & Hg).
  handler_cases openai t key user ai c s Ht Hk Ha Hu Ho He; cbn [fst snd]; intros E.
  - right. exists t, key. do 2 (split; [reflexivity|]). split; [exact Ha|]. split; [reflexivity|].
    right. exists user. split; [exact Hu|]. split; [reflexivity|]. left. exact Ho.
  - exfalso. exact (Hf _ _ _ E).
  - exfalso. exact (Hg _ _ _ _ E).
  - right. exists t, key. do 2 (split; [reflexivity|]). split; [exact Ha|]. split; [reflexivity|].
    right. exists user. split; [exact Hu|]. split; [reflexivity|].
    right. exists ai. split; [exact Ho|exact He].
  - right. exists t, key. do 2 (split; [reflexivity|]). split; [exact Ha|]. split; [reflexivity|].
    left. split; [exact Hu|reflexivity].
  - exfalso. exact (Hq _ _ _ E).
  - left. split; [right; reflexivity|reflexivity].
  - left. split; [left; reflexivity|reflexivity].
Qed.

(** X16: unless it is the fallback of the catch block, the response reports
    the count that is stored for the key of the request when the handler is
    done: a rejection the count it found, an admission the count it wrote.
    The fallback reports 0 whatever is stored. *)
Theorem X16_reported_usage_is_the_stored_count openai body now w key :
  let r := (generateHandler openai body now w).1 in
  let w' := (generateHandler openai body now w).2 in
  usage_key (clientId (destructure body)) now = Some key ->
  (r <> server_error -> todayUsage (json r) = used_of w' key)
  /\ (r = server_error -> todayUsage (json r) = 0%Z).
Proof.
  cbv zeta. intros Hkey. rewrite !generateHandler_run, Hkey.
  split; [|intros ->; reflexivity].
  assert (forall rq, used_of (called rq (bump key w)) key = (used_of w key + 1)%Z) as Hcalled.
  { intros rq. unfold used_of at 1. cbn [called bump usageCounter].
    rewrite lookup_insert_eq. reflexivity. }
  destruct (text _) as [t|]; [|intros H; exfalso; apply H; reflexivity].
  destruct (admits _ _); [|intros _; reflexivity].
  destruct (userPrompt _ _ t) as [user|]; [|intros H; exfalso; apply H; reflexivity].
  destruct (openai _) as [|ai]; [intros H; exfalso; apply H; reflexivity|].
  destruct (extract_reply ai) as [[|c s]|]; cbn [fst snd].
  - intros _. rewrite Hcalled. reflexivity.
  - intros _. rewrite Hcalled. reflexivity.
  - intros H; exfalso; apply H; reflexivity.
Qed.

(** ** Counts stay positive *)

Lemma counts_positive_step openai body now w :
  counts_positive w -> counts_positive (generateHandler openai body now w).2.
Proof.
  intros Hpos. destruct (handler_step_effect openai body now w) as [-> | (k & _ & Hc & _)];
    [exact Hpos|].
  intros key n. rewrite Hc. simpl. rewrite lookup_insert.
  destruct (decide (k = key)) as [->|_]; [|apply Hpos].
  intros [= <-]. unfold used_of. destruct (usageCounter w !! key) as [m|] eqn:E; simpl; [|lia].
  specialize (Hpos key m E). lia.
Qed.

Lemma counts_positive_serve_all jobs : forall w,
  counts_positive w -> counts_positive (serve_all jobs w).
Proof.
  induction jobs as [|j rest IH]; intros w Hpos; [exact Hpos|].
  cbn [serve_all]. apply IH, counts_positive_step, Hpos.
Qed.

(** X5: starting from a counter in which every count is at least one (the
    empty counter is one), every count stays at least one whatever requests
    are served, and every response then reports a usage that is not negative,
    at least one when it says ok=true. *)
Theorem X5_counts_stay_positive jobs w openai body now :
  counts_positive w ->
  let reached := serve_all jobs w in
  let r := (generateHandler openai body now reached).1 in
  counts_positive reached
  /\ (0 <= todayUsage (json r))%Z
  /\ (ok (json r) = true -> (1 <= todayUsage (json r))%Z).
Proof.
  intros Hpos. cbv zeta.
  pose proof (counts_positive_serve_all jobs w Hpos) as Hreached.
  split; [exact Hreached|].
  assert (forall key, 0 <= used_of (serve_all jobs w) key)%Z as Hused.
  { intros key. unfold used_of. destruct (usageCounter _ !! key) as [m|] eqn:E; simpl; [|lia].
    specialize (Hreached key m E). lia. }
  handler_cases openai t key user ai c s Ht Hk Ha Hu Ho He; read_response;
    (split; [try lia; specialize (Hused key); lia|]); try discriminate.
  intros _. specialize (Hused key). lia.
Qed.

(** ** When the output parsing throws *)

Lemma collect_parts_throws parts : forall acc,
  collect_parts parts acc = None <-> existsb nullish parts = true.
Proof.
  induction parts as [|c parts IH]; intros acc.
  - simpl. split; discriminate.
  - cbn [collect_parts existsb].
    destruct (nullish c) eqn:Hc.
    + destruct c; try discriminate Hc; simpl; split; auto.
    + destruct (get_not_nullish c (lit "type") Hc) as [ty ->]. cbn [mbind option_bind orb].
      destruct (strict_equals_string ty (lit "output_text")); [|apply IH].
      destruct (get_optional c (lit "text")); apply IH.
Qed.

Lemma collect_items_throws items : forall acc,
  collect_items items acc = None <-> existsb throwing_segment items = true.
Proof.
  induction items as [|item items IH]; intros acc.
  - simpl. split; discriminate.
  - cbn [collect_items existsb]. unfold throwing_segment at 1.
    destruct (truthy (get_optional item (lit "content"))) eqn:Htruthy; cbn [negb andb orb];
      [|apply IH].
    destruct (get_optional item (lit "content")) as [| |b|n|s|parts|props];
      try discriminate Htruthy; cbn [iterate mbind option_bind orb];
      try (split; reflexivity).
    + rewrite collect_parts_characters. cbn [mbind option_bind]. apply IH.
    + destruct (collect_parts parts acc) as [r|] eqn:Hparts; cbn [mbind option_bind].
      * assert (existsb nullish parts = false) as ->.
        { destruct (existsb nullish parts) eqn:E; [|reflexivity].
          apply (collect_parts_throws parts acc) in E. congruence. }
        apply IH.
      * apply collect_parts_throws in Hparts. rewrite Hparts. split; reflexivity.
Qed.

(** X10: the output parsing throws, and the request is answered by the catch
    block, exactly when some output segment has a content that is truthy and
    is neither a string nor an array free of [null] and [undefined]; on
    every other result, whatever its shape, a reply is extracted. *)
Theorem X10_extraction_throws_on_bad_segments_only ai :
  extract_reply ai = None <-> existsb throwing_segment (output_segments ai) = true.
Proof.
  unfold extract_reply, output_segments.
  destruct (truthy ai); [|simpl; split; discriminate].
  destruct (get_optional ai (lit "output")); try (simpl; split; discriminate).
  rewrite <- (collect_items_throws elems []).
  destruct (collect_items elems []); simpl; split; congruence.
Qed.

Lemma collect_items_app a b : forall acc,
  collect_items (a ++ b) acc = collect_items a acc ≫= collect_items b.
Proof.
  induction a as [|item a IH]; intros acc; [reflexivity|].
  cbn [app collect_items].
  destruct (negb (truthy (get_optional item (lit "content")))); [apply IH|].
  destruct (iterate (get_optional item (lit "content"))) as [parts|]; [|reflexivity].
  cbn [mbind option_bind].
  destruct (collect_parts parts acc) as [r|]; [|reflexivity].
  cbn [mbind option_bind]. apply IH.
Qed.

(** X12: a segment that holds no generated text (no content, or content
    parts none of which is an [output_text] with a string text) can stand
    anywhere among the output segments without changing what is extracted,
    be it a reply or a throw. *)
Theorem X12_textless_segments_are_skipped before segment behind :
  throwing_segment segment = false ->
  omap generated_text (content_parts segment) = [] ->
  extract_reply (with_output (before ++ segment :: behind))
  = extract_reply (with_output (before ++ behind)).
Proof.
  intros Hok Hnone.
  assert (forall acc, collect_items [segment] acc = Some acc) as Hskip.
  { intros acc. destruct (collect_items [segment] acc) as [r|] eqn:E.
    - rewrite (collect_items_sound _ _ _ E). simpl flat_map. rewrite app_nil_r, Hnone.
      simpl. rewrite app_nil_r. reflexivity.
    - apply collect_items_throws in E. simpl in E. rewrite Hok in E. discriminate E. }
  unfold extract_reply, with_output. simpl truthy. cbv iota.
  change (get_optional (VObj [(lit "output", VArr (before ++ segment :: behind))]) (lit "output"))
    with (VArr (before ++ segment :: behind)).
  change (get_optional (VObj [(lit "output", VArr (before ++ behind))]) (lit "output"))
    with (VArr (before ++ behind)).
  cbv iota. f_equal.
  rewrite !collect_items_app.
  destruct (collect_items before []) as [r|]; [|reflexivity].
  cbn [mbind option_bind].
  change (segment :: behind) with ([segment] ++ behind).
  rewrite collect_items_app, Hskip. reflexivity.
Qed.

(** ** The user prompt written out *)

Lemma userPrompt_text_trimmed t s text : trimmed (userPrompt_text t s text) = true.
Proof.
  unfold trimmed, userPrompt_text. apply andb_true_iff. split; [reflexivity|].
  match goal with
  | |- starts_clean (rev (_ ++ t ++ _ ++ s ++ _ ++ text ++ ?D)) = true =>
      assert (D = removelast D ++ [46%N]) as -> by (vm_compute; reflexivity)
  end.
  rewrite !app_assoc, rev_app_distr. reflexivity.
Qed.

(** X11: the user prompt is the fixed frame with the tone, the scenario and
    the customer text copied into it as they are: the call to trim removes
    the line break at either end and nothing else, whatever the three values
    hold; composing throws exactly when the tone or the scenario cannot be
    converted to a string. *)
Theorem X11_user_prompt_copies_its_inputs toneValue scenarioValue text :
  userPrompt toneValue scenarioValue text =
    match ToString toneValue, ToString scenarioValue with
    | Some t, Some s => Some (userPrompt_text t s text)
    | _, _ => None
    end.
Proof.
  unfold userPrompt.
  destruct (ToString toneValue) as [t|]; [|reflexivity].
  destruct (ToString scenarioValue) as [s|]; [|reflexivity].
  cbn [mbind option_bind]. f_equal.
  rewrite <- (trim_between_line_breaks _ (userPrompt_text_trimmed t s text)).
  f_equal. unfold userPrompt_text.
  match goal with
  | |- ?A ++ t ++ ?B ++ s ++ ?C ++ text ++ ?D
       = 10%N :: (?A' ++ t ++ _ ++ s ++ _ ++ text ++ ?D') ++ [10%N] =>
      assert (A = 10%N :: A') as -> by (vm_compute; reflexivity);
      assert (D = D' ++ [10%N]) as -> by (vm_compute; reflexivity)
  end.
  rewrite <- !app_assoc. reflexivity.
Qed.

(** ** When a conversion to string throws *)

(** Induction over values, arrays giving the property for their elements. *)
Lemma value_induction (P : value -> Prop) :
  P VUndefined -> P VNull -> (forall b, P (VBool b)) -> (forall n, P (VNum n)) ->
  (forall s, P (VStr s)) ->
  (forall elems, Forall P elems -> P (VArr elems)) ->
  (forall props, P (VObj props)) ->
  forall v, P v.
Proof.
  intros Hu Hn Hb Hnum Hs Harr Hobj. fix IH 1.
  intros [| |b|n|s|elems|props];
    [exact Hu | exact Hn | apply Hb | apply Hnum | apply Hs | | apply Hobj].
  apply Harr. revert elems. fix IHelems 1. intros [|e rest]; constructor.
  - apply IH.
  - apply IHelems.
Qed.

Lemma ToString_array_cons e rest :
  ToString (VArr (e :: rest)) =
    match (if nullish e then Some [] else ToString e), rest with
    | None, _ => None
    | Some s, [] => Some s
    | Some s, _ :: _ =>
        match ToString (VArr rest) with
        | None => None
        | Some r => Some (s ++ lit "," ++ r)
        end
    end.
Proof. reflexivity. Qed.

Lemma printable_array_cons e rest :
  printable (VArr (e :: rest)) = (nullish e || printable e) && printable (VArr rest).
Proof. reflexivity. Qed.

Lemma ToString_throws v : ToString v = None <-> printable v = false.
Proof.
  induction v as [| |b|n|s|elems IH|props] using value_induction;
    try (simpl; split; discriminate).
  - destruct b; simpl; split; discriminate.
  - destruct n; simpl; split; discriminate.
  - induction IH as [|e rest He Hrest IHrest]; [simpl; split; discriminate|].
    rewrite ToString_array_cons, printable_array_cons.
    destruct (nullish e) eqn:Hnull; cbn [orb andb].
    + destruct rest as [|e' rest']; [simpl; split; discriminate|].
      rewrite <- IHrest. destruct (ToString (VArr (e' :: rest'))); split; congruence.
    + destruct (ToString e) as [s|] eqn:Hs.
      * assert (printable e = true) as ->.
        { destruct (printable e); [reflexivity|]. destruct He as [_ He].
          discriminate (He eq_refl). }
        cbn [andb]. destruct rest as [|e' rest']; [simpl; split; discriminate|].
        rewrite <- IHrest. destruct (ToString (VArr (e' :: rest'))); split; congruence.
      * assert (printable e = false) as -> by (apply He; reflexivity).
        cbn [andb]. split; reflexivity.
  - simpl. destruct (own_property props (lit "toString")); split; congruence.
Qed.

(** X14: converting a value to a string throws exactly when the value is an
    object with a property of its own named toString, or an array that holds
    such an object at any depth; strings, numbers, booleans, [null],
    [undefined], other objects and arrays of these always convert. *)
Theorem X14_conversion_throws_on_own_toString_only v :
  (ToString v = None <-> printable v = false)
  /\ (is_Some (ToString v) <-> printable v = true).
Proof.
  split; [apply ToString_throws|]. split.
  - intros [s Hs]. destruct (printable v) eqn:Hp; [reflexivity|].
    apply ToString_throws in Hp. congruence.
  - intros Hp. destruct (ToString v) eqn:E; [eexists; reflexivity|].
    apply ToString_throws in E. congruence.
Qed.

Lemma text_is_some f : printable (clipboardText f) = true -> is_Some (text f).
Proof.
  intros Hp. unfold text, or_else, call_toString.
  destruct (truthy (clipboardText f)) eqn:Ht; [|eexists; reflexivity].
  assert (nullish (clipboardText f) = false) as ->.
  { destruct (clipboardText f); try reflexivity; discriminate Ht. }
  destruct (ToString (clipboardText f)) as [s|] eqn:E; [eexists; reflexivity|].
  apply ToString_throws in E. congruence.
Qed.

Lemma usage_key_is_some cid now : printable cid = true -> is_Some (usage_key cid now).
Proof.
  intros Hp. unfold usage_key, or_else.
  destruct (truthy cid); [|eexists; reflexivity].
  destruct (ToString cid) as [s|] eqn:E; [eexists; reflexivity|].
  apply ToString_throws in E. congruence.
Qed.

Lemma or_else_printable v d : printable v = true -> printable d = true ->
  printable (or_else v d) = true.
Proof. unfold or_else. destruct (truthy v); auto. Qed.

Lemma userPrompt_is_some toneValue scenarioValue text :
  printable toneValue = true -> printable scenarioValue = true ->
  is_Some (userPrompt toneValue scenarioValue text).
Proof.
  intros Ht Hs. unfold userPrompt.
  destruct (ToString toneValue) as [t|] eqn:Et;
    [|apply ToString_throws in Et; congruence].
  destruct (ToString scenarioValue) as [s|] eqn:Es;
    [|apply ToString_throws in Es; congruence].
  eexists. reflexivity.
Qed.

(** X17: a request whose clipboardText, clientId, tone and scenario all
    convert to strings (as every request made of strings, numbers, booleans
    and absent fields does) is answered by the fallback of the catch block
    only after the provider was called, and then because the call was
    rejected or because its result made the parsing throw. *)
Theorem X17_printable_requests_fail_through_the_provider_only openai body now w :
  let f := destructure body in
  let w' := (generateHandler openai body now w).2 in
  printable (clipboardText f) = true ->
  printable (clientId f) = true ->
  printable (tone f) = true ->
  printable (scenario f) = true ->
  (generateHandler openai body now w).1 = server_error ->
  exists rq,
    invoked w' = invoked w ++ [rq]
    /\ (openai rq = Rejects \/ exists ai, openai rq = Resolves ai /\ extract_reply ai = None).
Proof.
  cbv zeta. intros Hclip Hcid Htone Hscen.
  destruct (text_is_some _ Hclip) as [t0 Ht0].
  destruct (usage_key_is_some _ now Hcid) as [k0 Hk0].
  destruct (userPrompt_is_some (toneValue (destructure body)) (scenarioValue (destructure body)) t0)
    as [u0 Hu0]; [apply or_else_printable; [exact Htone|reflexivity]
                 |apply or_else_printable; [exact Hscen|reflexivity]|].
  destruct messages_differ as (Hf & Hq & Hg).
  rewrite generateHandler_run, Ht0, Hk0.
  destruct (admits _ _); [|intros E; exfalso; exact (Hq _ _ _ E)].
  rewrite Hu0.
  destruct (openai (create_request systemPrompt u0)) as [|ai] eqn:Ho.
  - intros _. exists (create_request systemPrompt u0). split; [reflexivity|left; exact Ho].
  - destruct (extract_reply ai) as [[|c s]|] eqn:He; cbn [fst snd]; intros E.
    + exfalso. exact (Hf _ _ _ E).
    + exfalso. exact (Hg _ _ _ _ E).
    + exists (create_request systemPrompt u0). split; [reflexivity|].
      right. exists ai. split; [exact Ho|exact He].
Qed.

(** ** Requests that overlap *)

Lemma before_await_reaches_provider body now w rq fr w1 :
  before_await body now w = (Normal (Awaiting rq fr), w1) ->
  exists user,
    rq = create_request systemPrompt user
    /\ usage_key (clientId (destructure body)) now = Some (f_key fr)
    /\ f_used fr = used_of w (f_key fr)
    /\ w1 = bump (f_key fr) w.
Proof.
  rewrite before_await_run.
  destruct (text _) as [t|]; [|discriminate].
  destruct (usage_key _ now) as [key|]; [|discriminate].
  destruct (admits _ _); [|discriminate].
  destruct (userPrompt _ _ t) as [user|]; [|discriminate].
  intros [= <- <- <-]. exists user. repeat split.
Qed.

(** X18: after its await the handler only reads.  It leaves the counter and
    the log as they are, and the usage it reports is the count stored at that
    moment: when a second request of the same key was admitted while the
    first was waiting for the provider, the first reports the count after
    both increments, not its own. *)
Theorem X18_usage_is_read_again_after_the_await body1 now1 body2 now2 w rq1 fr1 w1 rq2 fr2 w2 ai r :
  (0 <= used_of w (f_key fr1))%Z ->
  before_await body1 now1 w = (Normal (Awaiting rq1 fr1), w1) ->
  before_await body2 now2 w1 = (Normal (Awaiting rq2 fr2), w2) ->
  f_key fr2 = f_key fr1 ->
  extract_reply ai = Some r ->
  exists resp,
    after_await fr1 ai w2 = (Normal resp, w2)
    /\ todayUsage (json resp) = (used_of w (f_key fr1) + 2)%Z
    /\ f_used fr1 = used_of w (f_key fr1)
    /\ reply (json resp) = r.
Proof.
  intros Hpos H1 H2 Hkey Hr.
  destruct (before_await_reaches_provider _ _ _ _ _ _ H1) as (u1 & _ & _ & Hu1 & ->).
  destruct (before_await_reaches_provider _ _ _ _ _ _ H2) as (u2 & _ & _ & _ & ->).
  rewrite Hkey.
  assert (usageCounter (bump (f_key fr1) (bump (f_key fr1) w)) !! f_key fr1
          = Some (used_of w (f_key fr1) + 2)%Z) as Hstored.
  { cbn [bump usageCounter]. rewrite lookup_insert_eq, used_of_bump.
    destruct (decide (f_key fr1 = f_key fr1)); [|congruence]. f_equal. lia. }
  unfold after_await, mbind, M_bind, attempt. rewrite Hr.
  unfold usage_get_or. rewrite Hstored.
  destruct (Z.eqb_spec (used_of w (f_key fr1) + 2) 0) as [E|_]; [lia|].
  destruct r as [|c s]; eexists; (split; [reflexivity|]); repeat split; exact Hu1.
Qed.

(** ** What the provider is sent *)

Lemma handler_call_shape openai body now w :
  invoked (generateHandler openai body now w).2 = invoked w
  \/ exists user,
       invoked (generateHandler openai body now w).2
       = invoked w ++ [create_request systemPrompt user].
Proof.
  destruct (invoked_by_handler openai body now w) as [E | (t & user & _ & _ & E)];
    [left; exact E|right; exists user; exact E].
Qed.

(** X19: every call made to the provider, over any sequence of requests,
    names the model gpt-5-mini and carries the one fixed system prompt: what
    a request holds can only reach the user message. *)
Theorem X19_every_call_has_the_fixed_system_prompt jobs w :
  exists calls,
    invoked (serve_all jobs w) = invoked w ++ calls
    /\ Forall (fun rq => model rq = lit "gpt-5-mini" /\ system_text rq = systemPrompt) calls.
Proof.
  revert w. induction jobs as [|j rest IH]; intros w.
  - exists []. rewrite app_nil_r. split; [reflexivity|constructor].
  - cbn [serve_all].
    destruct (IH (generateHandler (job_openai j) (job_body j) (job_now j) w).2)
      as (calls & Hcalls & Hall).
    destruct (handler_call_shape (job_openai j) (job_body j) (job_now j) w) as [E | [user E]];
      rewrite E in Hcalls.
    + exists calls. split; assumption.
    + exists (create_request systemPrompt user :: calls).
      split; [rewrite Hcalls, <- app_assoc; reflexivity|].
      constructor; [split; reflexivity|exact Hall].
Qed.

(** ** The customer text *)

Lemma trimStart_all_white s : forallb is_white_space s = true -> trimStart s = [].
Proof.
  induction s as [|c s IH]; [reflexivity|]. cbn [forallb trimStart].
  intros H. apply andb_true_iff in H. destruct H as [-> H]. apply IH, H.
Qed.

(** X20: the customer text handed to the prompt is the clipboardText
    converted to a string and trimmed: it never has white space at either
    end, a string clipboardText gives its own trim, and a clipboardText that
    is absent, falsy or made of white space only gives the empty text. *)
Theorem X20_customer_text_is_trimmed body :
  let f := destructure body in
  (forall t, text f = Some t -> trimmed t = true /\ trim t = t)
  /\ (forall s, clipboardText f = VStr s -> text f = Some (trim s))
  /\ (forall s, clipboardText f = VStr s -> forallb is_white_space s = true -> text f = Some [])
  /\ (truthy (clipboardText f) = false -> text f = Some []).
Proof.
  intros f. split; [|split; [|split]].
  - intros t. unfold text.
    destruct (call_toString (or_else (clipboardText f) (VStr []))) as [x|]; [|discriminate].
    intros [= <-]. split; [apply trim_trimmed|apply trim_idempotent].
  - apply text_of_string.
  - intros s Hs Hwhite. rewrite (text_of_string f s Hs). f_equal.
    unfold trim. rewrite (trimStart_all_white s Hwhite). reflexivity.
  - apply text_of_falsy.
Qed.

(** ** The further properties at concrete requests *)

Lemma X2_two_clients_on_one_day :
  usage_key (VStr (lit "cs_test_1")) a_day = usage_key (VStr (lit "cs_test_2")) a_day
  <-> lit "cs_test_1" = lit "cs_test_2" /\ same_day a_day a_day.
Proof.
  apply X2_usage_key_identifies_client_and_day; vm_compute; discriminate.
Defined.

Lemma five_pro_jobs_counted :
  Forall (fun p => licenseKey (destructure (job_body p)) = VStr PRO_KEY
                   /\ counted_under free_key p) (replicate 5 pro_job).
Proof.
  apply Forall_replicate. split; [vm_compute; reflexivity|]. split.
  - eexists. vm_compute. reflexivity.
  - vm_compute. reflexivity.
Qed.

Lemma free_job_counted :
  licenseKey (destructure (job_body free_job)) <> VStr PRO_KEY /\ counted_under free_key free_job.
Proof.
  split; [vm_compute; discriminate|]. split.
  - eexists. vm_compute. reflexivity.
  - vm_compute. reflexivity.
Qed.

Lemma X3_five_pro_requests_then_a_free_one :
  used_of (serve_all (replicate 5 pro_job) fresh) free_key
  = (used_of fresh free_key + Z.of_nat (length (replicate 5 pro_job)))%Z
  /\ generateHandler (job_openai free_job) (job_body free_job) (job_now free_job)
       (serve_all (replicate 5 pro_job) fresh)
     = (quota_exceeded (used_of fresh free_key + Z.of_nat (length (replicate 5 pro_job))) 5 false,
        serve_all (replicate 5 pro_job) fresh).
Proof.
  apply X3_pro_requests_use_up_the_free_quota.
  - exact five_pro_jobs_counted.
  - exact (proj1 free_job_counted).
  - exact (proj2 free_job_counted).
  - vm_compute. discriminate.
Defined.

Lemma fresh_counts_positive : counts_positive fresh.
Proof. intros key n. unfold fresh. cbn [usageCounter]. rewrite lookup_empty. discriminate. Qed.

Lemma X5_after_three_requests :
  counts_positive (serve_all (replicate 3 free_job) fresh)
  /\ (0 <= todayUsage
             (json (generateHandler answering pro_body a_day
                      (serve_all (replicate 3 free_job) fresh)).1))%Z
  /\ (ok (json (generateHandler answering pro_body a_day
                  (serve_all (replicate 3 free_job) fresh)).1) = true ->
      (1 <= todayUsage
              (json (generateHandler answering pro_body a_day
                       (serve_all (replicate 3 free_job) fresh)).1))%Z).
Proof.
  exact (X5_counts_stay_positive (replicate 3 free_job) fresh answering pro_body a_day
           fresh_counts_positive).
Defined.


Lemma X9_another_client_before :
  (generateHandler (job_openai free_job) (job_body free_job) (job_now free_job)
     (serve_all (replicate 6 other_job) fresh)).1
  = (generateHandler (job_openai free_job) (job_body free_job) (job_now free_job) fresh).1
  /\ forall key, key_of free_job = Some key ->
       used_of (generateHandler (job_openai free_job) (job_body free_job) (job_now free_job)
                  (serve_all (replicate 6 other_job) fresh)).2 key
       = used_of (generateHandler (job_openai free_job) (job_body free_job) (job_now free_job)
                    fresh).2 key.
Proof.
  apply (X9_other_keys_do_not_interfere (replicate 6 other_job) free_job fresh).
  apply Forall_replicate. vm_compute. discriminate.
Defined.

Lemma X12_reasoning_segment_in_front :
  extract_reply (with_output ([] ++ reasoning_segment :: [message_segment]))
  = extract_reply (with_output ([] ++ [message_segment])).
Proof.
  apply X12_textless_segments_are_skipped; vm_compute; reflexivity.
Defined.

Lemma X13_tone_that_cannot_be_converted :
  ((text (destructure unprintable_tone_body) = None
    \/ usage_key (clientId (destructure unprintable_tone_body)) a_day = None)
   /\ (generateHandler answering unprintable_tone_body a_day fresh).2 = fresh)
  \/ exists t key,
       text (destructure unprintable_tone_body) = Some t
       /\ usage_key (clientId (destructure unprintable_tone_body)) a_day = Some key
       /\ admits (destructure unprintable_tone_body) (used_of fresh key) = true
       /\ usageCounter (generateHandler answering unprintable_tone_body a_day fresh).2
          = <[key := (used_of fresh key + 1)%Z]> (usageCounter fresh)
       /\ ((userPrompt (toneValue (destructure unprintable_tone_body))
              (scenarioValue (destructure unprintable_tone_body)) t = None
            /\ invoked (generateHandler answering unprintable_tone_body a_day fresh).2
               = invoked fresh)
           \/ exists user,
                userPrompt (toneValue (destructure unprintable_tone_body))
                  (scenarioValue (destructure unprintable_tone_body)) t = Some user
                /\ invoked (generateHandler answering unprintable_tone_body a_day fresh).2
                   = invoked fresh ++ [create_request systemPrompt user]
                /\ (answering (create_request systemPrompt user) = Rejects
                    \/ exists ai, answering (create_request systemPrompt user) = Resolves ai
                                  /\ extract_reply ai = None)).
Proof.
  apply (X13_fallback_after_the_gate_is_counted answering unprintable_tone_body a_day fresh).
  vm_compute. reflexivity.
Defined.

Lemma seven_free_jobs_counted :
  Forall (fun j => licenseKey (destructure (job_body j)) <> VStr PRO_KEY
                   /\ counted_under free_key j) (replicate 7 free_job).
Proof. apply Forall_replicate. exact free_job_counted. Qed.

Lemma X15_seven_requests_five_calls :
  exists calls,
    invoked (serve_all (replicate 7 free_job) fresh) = invoked fresh ++ calls
    /\ (Z.of_nat (length calls) <= Z.max 0 (5 - used_of fresh free_key))%Z
    /\ (usageCounter fresh !! free_key = None -> (length calls <= 5)%nat).
Proof.
  exact (X15_free_client_costs_at_most_five_calls free_key (replicate 7 free_job) fresh
           seven_free_jobs_counted).
Defined.

Lemma X16_rejection_reports_the_stored_count :
  ((generateHandler answering free_body a_day at_limit).1 <> server_error ->
   todayUsage (json (generateHandler answering free_body a_day at_limit).1)
   = used_of (generateHandler answering free_body a_day at_limit).2 free_key)
  /\ ((generateHandler answering free_body a_day at_limit).1 = server_error ->
      todayUsage (json (generateHandler answering free_body a_day at_limit).1) = 0%Z).
Proof.
  apply (X16_reported_usage_is_the_stored_count answering free_body a_day at_limit free_key).
  vm_compute. reflexivity.
Defined.

Lemma X17_pro_request_with_failing_provider :
  exists rq,
    invoked (generateHandler failing pro_body a_day fresh).2 = invoked fresh ++ [rq]
    /\ (failing rq = Rejects \/ exists ai, failing rq = Resolves ai /\ extract_reply ai = None).
Proof.
  apply (X17_printable_requests_fail_through_the_provider_only failing pro_body a_day fresh);
    vm_compute; reflexivity.
Defined.

Lemma two_requests_overlap :
  exists rq1 fr1 w1 rq2 fr2 w2,
    before_await free_body a_day fresh = (Normal (Awaiting rq1 fr1), w1)
    /\ before_await free_body a_day w1 = (Normal (Awaiting rq2 fr2), w2)
    /\ f_key fr1 = free_key /\ f_key fr2 = free_key.
Proof. do 6 eexists. repeat split; vm_compute; reflexivity. Qed.

Lemma X18_two_requests_overlap :
  exists fr1 w2 resp,
    after_await fr1 sample_result w2 = (Normal resp, w2)
    /\ todayUsage (json resp) = (used_of fresh (f_key fr1) + 2)%Z
    /\ f_used fr1 = used_of fresh (f_key fr1).
Proof.
  destruct two_requests_overlap as (rq1 & fr1 & w1 & rq2 & fr2 & w2 & H1 & H2 & K1 & K2).
  assert (extract_reply sample_result
          = Some (lit "문의 주셔서 감사합니다. 바로 확인해 드리겠습니다.")) as Hr
    by (vm_compute; reflexivity).
  assert (0 <= used_of fresh (f_key fr1))%Z as Hpos
    by (rewrite K1; vm_compute; discriminate).
  destruct (X18_usage_is_read_again_after_the_await free_body a_day free_body a_day fresh
              rq1 fr1 w1 rq2 fr2 w2 sample_result _ Hpos H1 H2 (eq_trans K2 (eq_sym K1)) Hr)
    as (resp & Hresp & Hu & Hf & _).
  exists fr1, w2, resp. repeat split; assumption.
Defined.
